(** * guardian_analyzer.nlp_engine.nlp_engine_provider

    A shallow embedding of [NlpEngineProvider] (its constructor,
    [create_engine], [_read_nlp_conf] and [_get_full_conf_path]) and the
    properties of the engine provisioning layer proved about it.

    Python values are embedded as the inductive [PyVal]; raising is the
    [Raise] branch of [result]; calls that reach outside the provider
    (logging, the file system, the NER configuration parser, the engine
    constructors and their [load]) leave an [Event] in a trace, so that
    "never invoked" and "before any I/O" are statements about traces. *)

From stdpp Require Import gmap strings list pretty.

Local Open Scope string_scope.

(** ** Exceptions and results *)

(** The exception raised, by class, with its message.  [KeyError] stands for
    [KeyError] and its subclasses: [except KeyError] catches exactly these. *)
Inductive Exn : Type :=
  | ValueError (msg : string)
  | KeyError (msg : string)
  | AttributeError (msg : string)
  | TypeError (msg : string)
  | OSError (msg : string)
  | OtherError (cls msg : string).

Inductive result (A : Type) : Type :=
  | Ok (a : A)
  | Raise (e : Exn).
Arguments Ok {A} a.
Arguments Raise {A} e.

Definition is_KeyError (e : Exn) : bool :=
  match e with KeyError _ => true | _ => false end.

(** ** Python values *)

(** The values a configuration is made of: what [yaml.safe_load] yields and
    what a caller writes as a literal.  A [dict] is kept as the list of its
    items, keys being strings; [py_lookup] reads the first item of a key. *)
#[local] Set Warnings "-register-all".
Inductive PyVal : Type :=
  | PNone
  | PBool (b : bool)
  | PInt (z : Z)
  | PStr (s : string)
  | PList (l : list PyVal)
  | PDict (items : list (string * PyVal)).

(** [bool(v)]. *)
Definition py_truthy (v : PyVal) : bool :=
  match v with
  | PNone => false
  | PBool b => b
  | PInt z => negb (z =? 0)%Z
  | PStr s => negb (String.eqb s EmptyString)
  | PList l => match l with [] => false | _ => true end
  | PDict items => match items with [] => false | _ => true end
  end.

Definition py_type_name (v : PyVal) : string :=
  match v with
  | PNone => "NoneType"
  | PBool _ => "bool"
  | PInt _ => "int"
  | PStr _ => "str"
  | PList _ => "list"
  | PDict _ => "dict"
  end.

Fixpoint py_lookup (items : list (string * PyVal)) (k : string) : option PyVal :=
  match items with
  | [] => None
  | (k', v) :: rest => if String.eqb k' k then Some v else py_lookup rest k
  end.

(** [v.get(k)]: only a dict has [get]; a missing key gives [None]. *)
Definition py_get (v : PyVal) (k : string) : result PyVal :=
  match v with
  | PDict items => Ok (default PNone (py_lookup items k))
  | _ => Raise (AttributeError
                  ("'" +:+ py_type_name v +:+ "' object has no attribute 'get'"))
  end.

(** [v[k]] for a string [k]. *)
Definition py_getitem (v : PyVal) (k : string) : result PyVal :=
  match v with
  | PDict items =>
      match py_lookup items k with
      | Some x => Ok x
      | None => Raise (KeyError k)
      end
  | PList _ => Raise (TypeError "list indices must be integers or slices, not str")
  | PStr _ => Raise (TypeError "string indices must be integers, not 'str'")
  | _ => Raise (TypeError ("'" +:+ py_type_name v +:+ "' object is not subscriptable"))
  end.

Fixpoint is_prefix (p s : string) : bool :=
  match p, s with
  | EmptyString, _ => true
  | String a p', String b s' => Ascii.eqb a b && is_prefix p' s'
  | String _ _, EmptyString => false
  end.

Fixpoint is_substring (p s : string) : bool :=
  is_prefix p s ||
  match s with
  | EmptyString => false
  | String _ s' => is_substring p s'
  end.

(** [k in v] for a string [k]: a key of a dict, an element of a list, a
    substring of a string; the other values are not containers. *)
Definition py_contains (k : string) (v : PyVal) : result bool :=
  match v with
  | PDict items => Ok (bool_decide (is_Some (py_lookup items k)))
  | PList l =>
      Ok (existsb (fun x => match x with PStr s => String.eqb s k | _ => false end) l)
  | PStr s => Ok (is_substring k s)
  | _ => Raise (TypeError
                  ("argument of type '" +:+ py_type_name v +:+ "' is not iterable"))
  end.

(** [hash(v)] succeeds: lists and dicts cannot be dictionary keys. *)
Definition py_hashable (v : PyVal) : bool :=
  match v with
  | PList _ | PDict _ => false
  | _ => true
  end.

(** [str(v)], as an f-string field prints it.  Only hashable values reach the
    one f-string that prints a configuration value (lists and dicts are
    refused as registry keys just before), so the text of a list or a dict is
    left abbreviated.  An integer prints in decimal; the refusal of recent
    interpreters to print integers of several thousand digits is not
    modelled, and the properties below that state a message do so for
    strings only. *)
Definition py_str (v : PyVal) : string :=
  match v with
  | PNone => "None"
  | PBool true => "True"
  | PBool false => "False"
  | PInt z => pretty z
  | PStr s => s
  | PList _ => "[...]"
  | PDict _ => "{...}"
  end.

(** ** Paths *)

(** [conf_file] is a [str] or a [pathlib.Path].  Both name a file by the same
    text, but a [Path] object is always truthy while the empty
    [str] is not. *)
Inductive PathLike : Type :=
  | StrPath (s : string)
  | PathObj (s : string).

Definition path_text (p : PathLike) : string :=
  match p with StrPath s | PathObj s => s end.

Definition path_truthy (p : PathLike) : bool :=
  match p with
  | StrPath s => negb (String.eqb s EmptyString)
  | PathObj _ => true
  end.

(** [conf_file] used as a condition, [None] included. *)
Definition conf_file_truthy (conf_file : option PathLike) : bool :=
  match conf_file with
  | None => false
  | Some p => path_truthy p
  end.

(** [Path(a, b)] for a relative [b]. *)
Definition path_join (a b : string) : string := a +:+ "/" +:+ b.

(** ** The messages of the three [ValueError]s the provider raises, and of
    the one it substitutes for a [KeyError] *)

(** ConflictingConfigurationSources. *)
Definition conflicting_sources_msg : string :=
  "Either conf_file or nlp_configuration should be provided, not both.".

(** InvalidConfiguration, from validation. *)
Definition illegal_configuration_msg : string :=
  "Illegal nlp configuration. " +:+
  "Configuration should include nlp_engine_name and models " +:+
  "(list of model_name for each lang_code).".

(** UnknownEngine. *)
Definition engine_not_available_msg (nlp_engine_name : PyVal) : string :=
  "NLP engine '" +:+ py_str nlp_engine_name +:+ "' is not available. " +:+
  "Make sure you have all required packages installed".

(** InvalidConfiguration, from a lookup failure during assembly. *)
Definition wrong_configuration_msg : string := "Wrong NLP engine configuration".

(** The configuration used when the file is not there. *)
Definition default_nlp_configuration : PyVal :=
  PDict [("nlp_engine_name", PStr "spacy");
         ("models", PList [PDict [("lang_code", PStr "en");
                                  ("model_name", PStr "en_core_web_lg")]])].

(** ** Engines *)

(** What the provider uses of an engine instance: its name, [load()], which
    updates the instance in place, and the languages of [engine.nlp] read for
    the log line.  Each of the last two may raise. *)
Class NlpEngine (E : Type) : Type := {
  instance_engine_name : E -> string;
  load : E -> result E;
  nlp_keys : E -> result (list string);
}.

Section Provider.

Context {Engine : Type} `{!NlpEngine Engine}.
Context {NerModelConfiguration : Type}.

(** The [ner_model_configuration] keyword argument of an engine constructor:
    the value read from the configuration as it is, or the entity
    [NerModelConfiguration.from_dict] made of it. *)
Inductive NerArgument : Type :=
  | NerRaw (v : PyVal)
  | NerParsed (c : NerModelConfiguration).

(** An engine class: the two class attributes and the constructor
    [cls(models=..., ner_model_configuration=...)]. *)
Record EngineClass : Type := {
  engine_name : string;
  is_available : bool;
  construct : PyVal -> NerArgument -> result Engine;
}.

(** ** Traces *)

Inductive LogLevel : Type := DEBUG | INFO | WARNING.

Inductive LogRecord : Type :=
  | LoadedAvailableEngines
  | ReadingDefaultConf (conf_file : string)
  | ConfFileNotFound (conf_file : string)
  | MissingNerModelConfiguration
  | CreatedEngine (name : string) (languages : list string).

Inductive Event : Type :=
  | Log (level : LogLevel) (record : LogRecord)
  | PathExists (path : string)
  | OpenAndLoad (path : string)
  | RegistryContains (key : PyVal)
  | RegistryGetItem (key : PyVal)
  | FromDict (v : PyVal)
  | Construct (cls : EngineClass) (models : PyVal) (ner : NerArgument)
  | LoadCall (engine : Engine).

Definition is_file_io (ev : Event) : bool :=
  match ev with PathExists _ | OpenAndLoad _ => true | _ => false end.

Definition is_construct (ev : Event) : bool :=
  match ev with Construct _ _ _ => true | _ => false end.

(** A computation: the events it caused, in order, and how it ended. *)
Definition M (A : Type) : Type := list Event * result A.

Definition ret {A} (a : A) : M A := ([], Ok a).
Definition raise {A} (e : Exn) : M A := ([], Raise e).
Definition emit (ev : Event) : M unit := ([ev], Ok tt).

(** An outside call: its event, then its outcome. *)
Definition call {A} (ev : Event) (r : result A) : M A := ([ev], r).

(** A Python operation that causes no event. *)
Definition pure {A} (r : result A) : M A := ([], r).

Definition bind {A B} (m : M A) (f : A -> M B) : M B :=
  match m with
  | (t, Ok a) => let (t', r) := f a in ((t ++ t')%list, r)
  | (t, Raise e) => (t, Raise e)
  end.

(** [try: m  except KeyError: h]. *)
Definition try_except_KeyError {A} (m : M A) (h : M A) : M A :=
  match m with
  | (t, Raise (KeyError _)) => let (t', r) := h in ((t ++ t')%list, r)
  | _ => m
  end.

Definition trace {A} (m : M A) : list Event := fst m.
Definition outcome {A} (m : M A) : result A := snd m.

Notation "x <- m ;; k" := (bind m (fun x => k))
  (at level 100, m at next level, right associativity).
Notation "m ;;; k" := (bind m (fun _ => k))
  (at level 100, right associativity).

(** ** The environment of a provider *)

(** The three engine classes imported by the module, the directory
    [Path(__file__).parent.parent], the file system as [Path.exists] and as
    [open] followed by [yaml.safe_load] see it, and
    [NerModelConfiguration.from_dict].  [Path.exists] answers yes or no, or
    raises: it lets through the errors of [stat] that do not mean an absent
    file (a name too long, for one). *)
Record World : Type := {
  SpacyNlpEngine : EngineClass;
  StanzaNlpEngine : EngineClass;
  TransformersNlpEngine : EngineClass;
  package_dir : string;
  exists_ : string -> result bool;
  safe_load : string -> result PyVal;
  from_dict : PyVal -> result NerModelConfiguration;
}.

Variable W : World.

(** ** The provider *)

(** [nlp_configuration] is [None] while the attribute has not been assigned. *)
Record NlpEngineProvider : Type := {
  nlp_engines : gmap string EngineClass;
  nlp_configuration : option PyVal;
}.

(** [{engine.engine_name: engine for engine in nlp_engines if engine.is_available}] *)
Definition registry_of (candidates : list EngineClass) : gmap string EngineClass :=
  foldl (fun reg engine =>
           if is_available engine then <[engine_name engine := engine]> reg else reg)
        ∅ candidates.

(** [_get_full_conf_path] *)
Definition _get_full_conf_path (default_conf_file : string) : PathLike :=
  PathObj (path_join (path_join (package_dir W) "conf") default_conf_file).

(** [_read_nlp_conf] *)
Definition _read_nlp_conf (conf_file : PathLike) : M PyVal :=
  present <- call (PathExists (path_text conf_file)) (exists_ W (path_text conf_file)) ;;
  nlp_configuration <-
    (if negb present then
       emit (Log WARNING (ConfFileNotFound (path_text conf_file))) ;;;
       ret default_nlp_configuration
     else
       call (OpenAndLoad (path_text conf_file)) (safe_load W (path_text conf_file))) ;;
  has_ner <- pure (py_contains "ner_model_configuration" nlp_configuration) ;;
  (if negb has_ner then emit (Log WARNING MissingNerModelConfiguration) else ret tt) ;;;
  ret nlp_configuration.

(** [__init__].  [nlp_engines] is [None] or a tuple; [conf_file] is [None],
    a [str] or a [Path]; [nlp_configuration] is any value, [PNone] for
    [None]. *)
Definition __init__ (nlp_engines : option (list EngineClass))
    (conf_file : option PathLike) (nlp_configuration : PyVal) : M NlpEngineProvider :=
  let nlp_engines :=
    match nlp_engines with
    | None | Some [] => [SpacyNlpEngine W; StanzaNlpEngine W; TransformersNlpEngine W]
    | Some l => l
    end in
  let self_nlp_engines := registry_of nlp_engines in
  emit (Log DEBUG LoadedAvailableEngines) ;;;
  (if conf_file_truthy conf_file && py_truthy nlp_configuration
   then raise (ValueError conflicting_sources_msg) else ret tt) ;;;
  let attr : option PyVal := None in
  let attr := if py_truthy nlp_configuration then Some nlp_configuration else attr in
  attr <- match conf_file with
          | Some p => if path_truthy p then c <- _read_nlp_conf p ;; ret (Some c)
                      else ret attr
          | None => ret attr
          end ;;
  attr <- match conf_file, nlp_configuration with
          | None, PNone =>
              let conf_file := _get_full_conf_path "default.yaml" in
              emit (Log DEBUG (ReadingDefaultConf (path_text conf_file))) ;;;
              c <- _read_nlp_conf conf_file ;;
              ret (Some c)
          | _, _ => ret attr
          end ;;
  ret {| nlp_engines := self_nlp_engines; nlp_configuration := attr |}.

(** [key in self.nlp_engines]: the keys are the engines' names, strings, so
    a hashable value that is not a string is not among them. *)
Definition registry_contains (reg : gmap string EngineClass) (key : PyVal) : result bool :=
  if py_hashable key then
    Ok (match key with
        | PStr s => bool_decide (is_Some (reg !! s))
        | _ => false
        end)
  else Raise (TypeError ("unhashable type: '" +:+ py_type_name key +:+ "'")).

(** [self.nlp_engines[key]]; the [KeyError] carries the key. *)
Definition registry_getitem (reg : gmap string EngineClass) (key : PyVal) : result EngineClass :=
  if py_hashable key then
    match key with
    | PStr s => match reg !! s with
                | Some cls => Ok cls
                | None => Raise (KeyError s)
                end
    | _ => Raise (KeyError (py_str key))
    end
  else Raise (TypeError ("unhashable type: '" +:+ py_type_name key +:+ "'")).

(** The body of the [try] statement of [create_engine]. *)
Definition assemble (self : NlpEngineProvider) (conf nlp_engine_name : PyVal) : M Engine :=
  nlp_engine_class <- call (RegistryGetItem nlp_engine_name)
                           (registry_getitem (nlp_engines self) nlp_engine_name) ;;
  nlp_models <- pure (py_getitem conf "models") ;;
  ner_model_configuration <- pure (py_get conf "ner_model_configuration") ;;
  ner_model_configuration <-
    (if py_truthy ner_model_configuration then
       c <- call (FromDict ner_model_configuration)
                 (from_dict W ner_model_configuration) ;;
       ret (NerParsed c)
     else ret (NerRaw ner_model_configuration)) ;;
  engine <- call (Construct nlp_engine_class nlp_models ner_model_configuration)
                 (construct nlp_engine_class nlp_models ner_model_configuration) ;;
  engine <- call (LoadCall engine) (load engine) ;;
  languages <- pure (nlp_keys engine) ;;
  emit (Log INFO (CreatedEngine (instance_engine_name engine) languages)) ;;;
  ret engine.

(** The condition of the first [if] of [create_engine], with the short
    circuit of [or]. *)
Definition illegal (conf : PyVal) : M bool :=
  if negb (py_truthy conf) then ret true else
  models <- pure (py_get conf "models") ;;
  if negb (py_truthy models) then ret true else
  name <- pure (py_get conf "nlp_engine_name") ;;
  ret (negb (py_truthy name)).

(** [create_engine] *)
Definition create_engine (self : NlpEngineProvider) : M Engine :=
  match nlp_configuration self with
  | None =>
      raise (AttributeError
               "'NlpEngineProvider' object has no attribute 'nlp_configuration'")
  | Some conf =>
      bad <- illegal conf ;;
      if (bad : bool) then raise (ValueError illegal_configuration_msg) else
      nlp_engine_name <- pure (py_getitem conf "nlp_engine_name") ;;
      known <- call (RegistryContains nlp_engine_name)
                    (registry_contains (nlp_engines self) nlp_engine_name) ;;
      if negb known then raise (ValueError (engine_not_available_msg nlp_engine_name)) else
      try_except_KeyError
        (assemble self conf nlp_engine_name)
        (raise (ValueError wrong_configuration_msg))
  end.

End Provider.

Arguments EngineClass Engine NerModelConfiguration : clear implicits.
Arguments World Engine NerModelConfiguration : clear implicits.
Arguments NlpEngineProvider Engine NerModelConfiguration : clear implicits.
Arguments Event Engine NerModelConfiguration : clear implicits.
Arguments NerArgument NerModelConfiguration : clear implicits.
Arguments M Engine NerModelConfiguration A : clear implicits.

(** ** A small concrete environment, to run the provider on *)

(** An engine instance described by what the provider can see of it: the
    exception its [load] raises, if any, and the languages it holds after a
    successful load. *)
Record SampleEngine : Type := {
  sample_name : string;
  sample_load_error : option Exn;
  sample_languages : list string;
  sample_models : PyVal;
  sample_ner_parsed : bool;
}.

#[export] Instance SampleEngine_NlpEngine : NlpEngine SampleEngine := {
  instance_engine_name := sample_name;
  load e := match sample_load_error e with
            | Some err => Raise err
            | None => Ok e
            end;
  nlp_keys e := Ok (sample_languages e);
}.

(** A sample class: it builds an instance that remembers its arguments. *)
Definition sample_class (name : string) (available : bool) (load_error : option Exn)
  : EngineClass SampleEngine PyVal :=
  {| engine_name := name;
     is_available := available;
     construct models ner :=
       Ok {| sample_name := name;
             sample_load_error := load_error;
             sample_languages := ["en"];
             sample_models := models;
             sample_ner_parsed := match ner with NerParsed _ => true | NerRaw _ => false end |} |}.

(** A world where spacy is installed, stanza and transformers are not, no
    file exists, and the NER configuration entity is the dict itself. *)
Definition sample_world : World SampleEngine PyVal :=
  {| SpacyNlpEngine := sample_class "spacy" true None;
     StanzaNlpEngine := sample_class "stanza" false None;
     TransformersNlpEngine := sample_class "transformers" false None;
     package_dir := "/opt/guardian_analyzer";
     exists_ := fun _ => Ok false;
     safe_load := fun p => Raise (OSError ("No such file or directory: " +:+ p));
     from_dict := fun v => Ok v |}.

(** A world that differs from [sample_world] in one point: loading spacy
    raises the given exception. *)
Definition failing_load_world (err : Exn) : World SampleEngine PyVal :=
  {| SpacyNlpEngine := sample_class "spacy" true (Some err);
     StanzaNlpEngine := StanzaNlpEngine sample_world;
     TransformersNlpEngine := TransformersNlpEngine sample_world;
     package_dir := package_dir sample_world;
     exists_ := exists_ sample_world;
     safe_load := safe_load sample_world;
     from_dict := from_dict sample_world |}.

(** [NlpEngineProvider(nlp_engines, conf_file, nlp_configuration).create_engine()] *)
Definition provide {Engine} `{!NlpEngine Engine} {NerModelConfiguration}
    (W : World Engine NerModelConfiguration)
    (nlp_engines : option (list (EngineClass Engine NerModelConfiguration)))
    (conf_file : option PathLike) (nlp_configuration : PyVal)
  : M Engine NerModelConfiguration Engine :=
  bind (__init__ W nlp_engines conf_file nlp_configuration) (create_engine W).

(** The provider [sample_world] builds from its own three classes, holding
    the given configuration attribute. *)
Definition sample_provider (attr : option PyVal) : NlpEngineProvider SampleEngine PyVal :=
  {| nlp_engines := registry_of [SpacyNlpEngine sample_world;
                                 StanzaNlpEngine sample_world;
                                 TransformersNlpEngine sample_world];
     nlp_configuration := attr |}.

Definition english_models : PyVal :=
  PList [PDict [("lang_code", PStr "en"); ("model_name", PStr "en_core_web_lg")]].

(** A configuration asking for stanza. *)
Definition stanza_configuration : list (string * PyVal) :=
  [("nlp_engine_name", PStr "stanza"); ("models", english_models)].

(** A configuration asking for spacy, with the given NER section. *)
Definition spacy_configuration (ner : PyVal) : list (string * PyVal) :=
  [("nlp_engine_name", PStr "spacy"); ("models", english_models);
   ("ner_model_configuration", ner)].

(** Three candidates: two available ones named spacy around an unavailable
    stanza. *)
Definition sample_candidates : list (EngineClass SampleEngine PyVal) :=
  [sample_class "spacy" true None;
   sample_class "stanza" false None;
   sample_class "spacy" true (Some (OSError "model not found"))].

(** The provider [failing_load_world err] builds from its own three classes
    when no configuration file exists, and the engine it constructs. *)
Definition failing_provider (err : Exn) : NlpEngineProvider SampleEngine PyVal :=
  {| nlp_engines := registry_of [SpacyNlpEngine (failing_load_world err);
                                 StanzaNlpEngine (failing_load_world err);
                                 TransformersNlpEngine (failing_load_world err)];
     nlp_configuration := Some default_nlp_configuration |}.

Definition failing_engine (err : Exn) : SampleEngine :=
  {| sample_name := "spacy";
     sample_load_error := Some err;
     sample_languages := ["en"];
     sample_models := english_models;
     sample_ner_parsed := false |}.

(** The provider [sample_world] builds from [sample_candidates]. *)
Definition candidates_provider (attr : option PyVal) : NlpEngineProvider SampleEngine PyVal :=
  {| nlp_engines := registry_of sample_candidates; nlp_configuration := attr |}.

(** The candidates of name [n] that enter the registry. *)
Definition registers {Engine NerModelConfiguration}
    (n : string) (engine : EngineClass Engine NerModelConfiguration) : bool :=
  is_available engine && String.eqb (engine_name engine) n.



(** The events that reach an engine or the NER configuration parser. *)
Definition is_engine_effect {Engine NerModelConfiguration}
    (ev : Event Engine NerModelConfiguration) : bool :=
  match ev with
  | FromDict _ | Construct _ _ _ | LoadCall _ => true
  | _ => false
  end.

Definition is_load {Engine NerModelConfiguration}
    (ev : Event Engine NerModelConfiguration) : bool :=
  match ev with LoadCall _ => true | _ => false end.

(** The events of the provider's own registry. *)
Definition is_registry_event {Engine NerModelConfiguration}
    (ev : Event Engine NerModelConfiguration) : bool :=
  match ev with RegistryContains _ | RegistryGetItem _ => true | _ => false end.

(** The candidates [__init__] builds the registry from. *)
Definition effective_candidates {Engine NerModelConfiguration}
    (W : World Engine NerModelConfiguration)
    (nlp_engines : option (list (EngineClass Engine NerModelConfiguration)))
  : list (EngineClass Engine NerModelConfiguration) :=
  match nlp_engines with
  | None | Some [] => [SpacyNlpEngine W; StanzaNlpEngine W; TransformersNlpEngine W]
  | Some l => l
  end.

(** ** More sample environments *)

(** A world like [sample_world] where every path exists and parses to the
    given outcome. *)
Definition file_world (content : result PyVal) : World SampleEngine PyVal :=
  {| SpacyNlpEngine := SpacyNlpEngine sample_world;
     StanzaNlpEngine := StanzaNlpEngine sample_world;
     TransformersNlpEngine := TransformersNlpEngine sample_world;
     package_dir := package_dir sample_world;
     exists_ := fun _ => Ok true;
     safe_load := fun _ => content;
     from_dict := from_dict sample_world |}.

(** A world like [sample_world] where the NER configuration parser raises. *)
Definition unparsable_world (err : Exn) : World SampleEngine PyVal :=
  {| SpacyNlpEngine := SpacyNlpEngine sample_world;
     StanzaNlpEngine := StanzaNlpEngine sample_world;
     TransformersNlpEngine := TransformersNlpEngine sample_world;
     package_dir := package_dir sample_world;
     exists_ := exists_ sample_world;
     safe_load := safe_load sample_world;
     from_dict := fun _ => Raise err |}.

(** A world like [sample_world] where no engine is available. *)
Definition bare_world : World SampleEngine PyVal :=
  {| SpacyNlpEngine := sample_class "spacy" false None;
     StanzaNlpEngine := StanzaNlpEngine sample_world;
     TransformersNlpEngine := TransformersNlpEngine sample_world;
     package_dir := package_dir sample_world;
     exists_ := exists_ sample_world;
     safe_load := safe_load sample_world;
     from_dict := from_dict sample_world |}.

(** An available class whose constructor raises. *)
Definition broken_class (name : string) (err : Exn) : EngineClass SampleEngine PyVal :=
  {| engine_name := name;
     is_available := true;
     construct := fun _ _ => Raise err |}.

(** An engine instance whose [load] succeeds and whose [nlp] cannot be read
    afterwards. *)
Record OpaqueEngine : Type := {
  opaque_name : string;
  opaque_nlp_error : Exn;
}.

#[export] Instance OpaqueEngine_NlpEngine : NlpEngine OpaqueEngine := {
  instance_engine_name := opaque_name;
  load e := Ok e;
  nlp_keys e := Raise (opaque_nlp_error e);
}.

Definition opaque_class (name : string) (err : Exn) : EngineClass OpaqueEngine PyVal :=
  {| engine_name := name;
     is_available := true;
     construct := fun _ _ => Ok {| opaque_name := name; opaque_nlp_error := err |} |}.

Definition opaque_world (err : Exn) : World OpaqueEngine PyVal :=
  {| SpacyNlpEngine := opaque_class "spacy" err;
     StanzaNlpEngine := opaque_class "stanza" err;
     TransformersNlpEngine := opaque_class "transformers" err;
     package_dir := "/opt/guardian_analyzer";
     exists_ := fun _ => Ok false;
     safe_load := fun p => Raise (OSError ("No such file or directory: " +:+ p));
     from_dict := fun v => Ok v |}.

(** The providers of the further sample environments. *)
Definition broken_provider (err : Exn) : NlpEngineProvider SampleEngine PyVal :=
  {| nlp_engines := registry_of [broken_class "spacy" err];
     nlp_configuration := Some default_nlp_configuration |}.

Definition opaque_provider (err : Exn) : NlpEngineProvider OpaqueEngine PyVal :=
  {| nlp_engines := registry_of [SpacyNlpEngine (opaque_world err);
                                 StanzaNlpEngine (opaque_world err);
                                 TransformersNlpEngine (opaque_world err)];
     nlp_configuration := Some default_nlp_configuration |}.

Definition bare_provider (attr : option PyVal) : NlpEngineProvider SampleEngine PyVal :=
  {| nlp_engines := registry_of [SpacyNlpEngine bare_world;
                                 StanzaNlpEngine bare_world;
                                 TransformersNlpEngine bare_world];
     nlp_configuration := attr |}.

(** The engine [sample_world] builds for spacy, told whether it was given a
    parsed NER configuration. *)
Definition spacy_engine (ner_parsed : bool) : SampleEngine :=
  {| sample_name := "spacy";
     sample_load_error := None;
     sample_languages := ["en"];
     sample_models := english_models;
     sample_ner_parsed := ner_parsed |}.

(** * Properties *)

Section Strings.

Implicit Types (p s a : string).

Lemma is_prefix_app p s : is_prefix p (p +:+ s) = true.
Proof.
  induction p as [|c p IH]; [reflexivity|].
  change (String c p +:+ s) with (String c (p +:+ s)).
  cbn [is_prefix]. by rewrite Ascii.eqb_refl, IH.
Qed.

Lemma is_substring_prefix p s : is_prefix p s = true -> is_substring p s = true.
Proof. intros Hp. destruct s; cbn; by rewrite Hp. Qed.

Lemma is_substring_app_r p a s :
  is_substring p s = true -> is_substring p (a +:+ s) = true.
Proof.
  intros Hs. induction a as [|c a IH]; [exact Hs|].
  change (String c a +:+ s) with (String c (a +:+ s)).
  cbn [is_substring]. rewrite IH. apply orb_true_r.
Qed.

(** The message on an unknown engine shows its name and the advice. *)
Lemma engine_not_available_msg_shows (n : string) :
  is_substring n (engine_not_available_msg (PStr n)) = true /\
  is_substring "Make sure you have all required packages installed"
    (engine_not_available_msg (PStr n)) = true.
Proof.
  unfold engine_not_available_msg. cbn [py_str]. split.
  - apply is_substring_app_r, is_substring_prefix, is_prefix_app.
  - apply is_substring_app_r, is_substring_app_r, is_substring_app_r.
    reflexivity.
Qed.

End Strings.

Section Registry.

Context {Engine : Type} {NerModelConfiguration : Type}.
Implicit Types (l : list (EngineClass Engine NerModelConfiguration)) (n : string).

Lemma registry_fold_lookup l n (acc : gmap string (EngineClass Engine NerModelConfiguration)) :
  foldl (fun reg engine =>
           if is_available engine then <[engine_name engine := engine]> reg else reg)
        acc l !! n
  = match last (List.filter (registers n) l) with
    | Some e => Some e
    | None => acc !! n
    end.
Proof.
  revert acc. induction l as [|x l IH]; intros acc; [reflexivity|].
  cbn [foldl List.filter]. rewrite IH. unfold registers at 2.
  destruct (is_available x) eqn:Hav; cbn [andb].
  - destruct (String.eqb_spec (engine_name x) n) as [->|Hne].
    + rewrite last_cons. destruct (last _); [reflexivity|].
      apply lookup_insert_eq.
    + destruct (last _); [reflexivity|]. by apply lookup_insert_ne.
  - reflexivity.
Qed.

(** The entry of a name is the last available candidate of that name. *)
Lemma registry_of_lookup l n :
  registry_of l !! n = last (List.filter (registers n) l).
Proof.
  unfold registry_of. rewrite registry_fold_lookup.
  by destruct (last _).
Qed.

Lemma registry_of_entry l n e :
  registry_of l !! n = Some e ->
  In e l /\ is_available e = true /\ engine_name e = n.
Proof.
  rewrite registry_of_lookup. intros Hlast.
  apply last_Some_elem_of, list_elem_of_In, filter_In in Hlast.
  destruct Hlast as [Hin Hreg]. unfold registers in Hreg.
  apply andb_true_iff in Hreg as [Hav Hname].
  by apply String.eqb_eq in Hname.
Qed.

Lemma registry_of_keys l n :
  is_Some (registry_of l !! n) <->
  exists e, In e l /\ is_available e = true /\ engine_name e = n.
Proof.
  split.
  - intros [e He]. exists e. by apply registry_of_entry.
  - intros (e & Hin & Hav & Hname). rewrite registry_of_lookup.
    apply last_is_Some. intros Hnil.
    assert (In e (List.filter (registers n) l)) as Hf.
    { apply filter_In. split; [done|]. unfold registers.
      rewrite Hav. by apply String.eqb_eq. }
    rewrite Hnil in Hf. destruct Hf.
Qed.

End Registry.

Section Computations.

Context {Engine : Type} {NerModelConfiguration : Type}.
Implicit Types (t : list (Event Engine NerModelConfiguration)).

Lemma bind_outcome {A B} (m : M Engine NerModelConfiguration A) (f : A -> M Engine NerModelConfiguration B) :
  outcome (bind m f) =
    match outcome m with
    | Ok a => outcome (f a)
    | Raise e => Raise e
    end.
Proof.
  destruct m as [t [a|e]]; cbn; [|reflexivity]. by destruct (f a).
Qed.

Lemma bind_trace {A B} (m : M Engine NerModelConfiguration A) (f : A -> M Engine NerModelConfiguration B) :
  trace (bind m f) =
    (trace m ++ match outcome m with
                | Ok a => trace (f a)
                | Raise e => []
                end)%list.
Proof.
  destruct m as [t [a|e]]; cbn; [|by rewrite app_nil_r]. by destruct (f a).
Qed.

Lemma bind_Ok_inv {A B} (m : M Engine NerModelConfiguration A) (f : A -> M Engine NerModelConfiguration B) t b :
  bind m f = (t, Ok b) ->
  exists t1 a t2, m = (t1, Ok a) /\ f a = (t2, Ok b) /\ t = (t1 ++ t2)%list.
Proof.
  destruct m as [t1 [a|e]]; cbn; [|discriminate].
  destruct (f a) as [t2 r] eqn:Hf. intros [= <- ->]. by exists t1, a, t2.
Qed.

Lemma bind_ret_l {A B} (a : A) (f : A -> M Engine NerModelConfiguration B) : bind ([], Ok a) f = f a.
Proof. unfold bind. by destruct (f a). Qed.

Lemma computation_eta {A} (m : M Engine NerModelConfiguration A) : m = (trace m, outcome m).
Proof. by destruct m. Qed.

(** What [except KeyError] lets through and what it replaces. *)
Lemma try_except_KeyError_outcome {A} (m h : M Engine NerModelConfiguration A) :
  outcome (try_except_KeyError m h) =
    match outcome m with
    | Raise (KeyError _) => outcome h
    | r => r
    end.
Proof.
  destruct m as [t [a|[]]]; cbn; try reflexivity. by destruct h.
Qed.

Lemma try_except_KeyError_trace {A} (m h : M Engine NerModelConfiguration A) :
  trace (try_except_KeyError m h) =
    (trace m ++ match outcome m with
                | Raise (KeyError _) => trace h
                | _ => []
                end)%list.
Proof.
  destruct m as [t [a|[]]]; cbn; rewrite ?app_nil_r; try reflexivity.
  by destruct h.
Qed.

End Computations.

Section Construction.

Context {Engine : Type} `{!NlpEngine Engine} {NerModelConfiguration : Type}.
Variable W : World Engine NerModelConfiguration.
Implicit Types (engines : option (list (EngineClass Engine NerModelConfiguration))).
Implicit Types (conf_file : option PathLike) (conf : PyVal).

(** The candidates the registry is built from. *)
Lemma init_registry engines conf_file conf t self :
  __init__ W engines conf_file conf = (t, Ok self) ->
  nlp_engines self =
    registry_of match engines with
                | None | Some [] =>
                    [SpacyNlpEngine W; StanzaNlpEngine W; TransformersNlpEngine W]
                | Some l => l
                end.
Proof.
  unfold __init__. intros H.
  repeat (apply bind_Ok_inv in H as (? & ? & ? & _ & H & _)).
  unfold ret in H. by simplify_eq.
Qed.

(** [_read_nlp_conf] on a path that is not there. *)
Lemma read_nlp_conf_missing (p : PathLike) :
  exists_ W (path_text p) = Ok false ->
  _read_nlp_conf W p =
    ([PathExists (path_text p);
      Log WARNING (ConfFileNotFound (path_text p));
      Log WARNING MissingNerModelConfiguration],
     Ok default_nlp_configuration).
Proof. intros Hmissing. unfold _read_nlp_conf. by rewrite Hmissing. Qed.

(** The constructor given an inline value and no file. *)
Lemma init_inline engines conf :
  conf <> PNone ->
  __init__ W engines None conf =
    ([Log DEBUG LoadedAvailableEngines],
     Ok {| nlp_engines :=
             registry_of match engines with
                         | None | Some [] =>
                             [SpacyNlpEngine W; StanzaNlpEngine W; TransformersNlpEngine W]
                         | Some l => l
                         end;
           nlp_configuration := if py_truthy conf then Some conf else None |}).
Proof. intros Hconf. by destruct conf. Qed.

(** The constructor given neither source. *)
Lemma init_default engines :
  __init__ W engines None PNone =
    (Log DEBUG LoadedAvailableEngines
       :: Log DEBUG (ReadingDefaultConf (path_text (_get_full_conf_path W "default.yaml")))
       :: trace (_read_nlp_conf W (_get_full_conf_path W "default.yaml")),
     match outcome (_read_nlp_conf W (_get_full_conf_path W "default.yaml")) with
     | Ok c =>
         Ok {| nlp_engines :=
                 registry_of match engines with
                             | None | Some [] =>
                                 [SpacyNlpEngine W; StanzaNlpEngine W;
                                  TransformersNlpEngine W]
                             | Some l => l
                             end;
               nlp_configuration := Some c |}
     | Raise e => Raise e
     end).
Proof.
  unfold __init__. cbn [conf_file_truthy andb].
  destruct (_read_nlp_conf W _) as [t [c|e]]; cbn; by rewrite ?app_nil_r.
Qed.

(** The constructor given a file and an inline value that counts as none. *)
Lemma init_conf_file engines (p : PathLike) conf :
  path_truthy p = true -> py_truthy conf = false ->
  __init__ W engines (Some p) conf =
    (Log DEBUG LoadedAvailableEngines :: trace (_read_nlp_conf W p),
     match outcome (_read_nlp_conf W p) with
     | Ok c =>
         Ok {| nlp_engines :=
                 registry_of match engines with
                             | None | Some [] =>
                                 [SpacyNlpEngine W; StanzaNlpEngine W;
                                  TransformersNlpEngine W]
                             | Some l => l
                             end;
               nlp_configuration := Some c |}
     | Raise e => Raise e
     end).
Proof.
  intros Hp Hconf. unfold __init__. cbn [conf_file_truthy].
  rewrite Hp, Hconf. cbn [andb].
  destruct (_read_nlp_conf W p) as [t [c|e]], conf; cbn; by rewrite ?app_nil_r.
Qed.

(** C3, amended: when a truthy configuration file (a non-empty [str] or any
    [Path]) and a truthy inline configuration are both supplied, the
    constructor raises the [ValueError] of conflicting sources, whatever the
    two hold, and the only event before it is the debug line on the registry:
    the file system has not been touched. *)
Theorem conflicting_sources_refused engines conf_file conf :
  conf_file_truthy conf_file = true ->
  py_truthy conf = true ->
  __init__ W engines conf_file conf =
    ([Log DEBUG LoadedAvailableEngines], Raise (ValueError conflicting_sources_msg)) /\
  forall ev, In ev (trace (__init__ W engines conf_file conf)) -> is_file_io ev = false.
Proof.
  intros Hfile Hconf.
  assert (__init__ W engines conf_file conf =
            ([Log DEBUG LoadedAvailableEngines],
             Raise (ValueError conflicting_sources_msg))) as Hinit.
  { unfold __init__. by rewrite Hfile, Hconf. }
  split; [exact Hinit|].
  rewrite Hinit. intros ev [<-|[]]. reflexivity.
Qed.

(** C4, amended: for a candidate sequence that is not empty, the registry of
    the provider maps a name to the last available candidate of that name;
    so every entry is an available candidate stored under its own name, and
    the names present are exactly the names of the available candidates. *)
Theorem registry_of_supplied_candidates
    (l : list (EngineClass Engine NerModelConfiguration)) conf_file conf t self :
  l <> [] ->
  __init__ W (Some l) conf_file conf = (t, Ok self) ->
  (forall n, nlp_engines self !! n = last (List.filter (registers n) l)) /\
  (forall n e, nlp_engines self !! n = Some e ->
               In e l /\ is_available e = true /\ engine_name e = n) /\
  (forall n, is_Some (nlp_engines self !! n) <->
             exists e, In e l /\ is_available e = true /\ engine_name e = n).
Proof.
  intros Hl Hinit. apply init_registry in Hinit.
  destruct l as [|x l']; [done|]. rewrite Hinit.
  split; [|split].
  - intros n. apply registry_of_lookup.
  - intros n e. apply registry_of_entry.
  - intros n. apply registry_of_keys.
Qed.


(** C10: an empty candidate sequence is treated as no sequence: the
    constructor behaves as it does without the argument, and the registry is
    the one built from the three engine classes of the module, keeping for
    each name the last available one. *)
Theorem empty_candidates_use_defaults conf_file conf :
  __init__ W (Some []) conf_file conf = __init__ W None conf_file conf /\
  forall t self,
    __init__ W (Some []) conf_file conf = (t, Ok self) ->
    nlp_engines self =
      registry_of [SpacyNlpEngine W; StanzaNlpEngine W; TransformersNlpEngine W] /\
    forall n,
      nlp_engines self !! n =
        last (List.filter (registers n)
                [SpacyNlpEngine W; StanzaNlpEngine W; TransformersNlpEngine W]).
Proof.
  split; [reflexivity|].
  intros t self Hinit. apply init_registry in Hinit.
  split; [exact Hinit|].
  intros n. rewrite Hinit. apply registry_of_lookup.
Qed.

End Construction.

(** C9, amended: a provider built from a truthy inline configuration object
    alone holds that very object as its configuration, whatever the candidate
    engines and the environment: two constructions from the same object
    succeed, without touching the file system, and their configurations are
    both the object, hence equal. *)
Theorem inline_configuration_adopted
    {Engine : Type} {NerModelConfiguration : Type}
    (W W' : World Engine NerModelConfiguration)
    (engines engines' : option (list (EngineClass Engine NerModelConfiguration)))
    (conf : PyVal) :
  py_truthy conf = true ->
  exists self self',
    __init__ W engines None conf = ([Log DEBUG LoadedAvailableEngines], Ok self) /\
    __init__ W' engines' None conf = ([Log DEBUG LoadedAvailableEngines], Ok self') /\
    nlp_configuration self = Some conf /\
    nlp_configuration self' = Some conf /\
    nlp_configuration self = nlp_configuration self'.
Proof.
  intros Hconf.
  assert (conf <> PNone) as Hgiven by (by intros ->).
  do 2 eexists. rewrite !init_inline by done.
  cbn [nlp_configuration]. by rewrite Hconf.
Qed.

Section Creation.

Context {Engine : Type} `{!NlpEngine Engine} {NerModelConfiguration : Type}.
Variable W : World Engine NerModelConfiguration.
Implicit Types (self : NlpEngineProvider Engine NerModelConfiguration).
Implicit Types (conf models name : PyVal) (items : list (string * PyVal)).

(** A configuration that passes the validation of [create_engine]: what is
    left of the method is the registry test and the guarded assembly. *)
Lemma create_engine_valid self items models name :
  nlp_configuration self = Some (PDict items) ->
  py_lookup items "models" = Some models -> py_truthy models = true ->
  py_lookup items "nlp_engine_name" = Some name -> py_truthy name = true ->
  create_engine W self =
    bind (call (RegistryContains name) (registry_contains (nlp_engines self) name))
      (fun known =>
         if negb known then raise (ValueError (engine_not_available_msg name))
         else try_except_KeyError (assemble W self (PDict items) name)
                (raise (ValueError wrong_configuration_msg))).
Proof.
  intros Hconf Hmodels Hm Hname Hn. unfold create_engine. rewrite Hconf.
  assert (illegal (Engine:=Engine) (NerModelConfiguration:=NerModelConfiguration)
            (PDict items) = ([], Ok false)) as ->.
  { unfold illegal. destruct items as [|item items]; [discriminate|].
    cbn [py_truthy negb]. unfold py_get. rewrite Hmodels, Hname.
    cbn [default from_option id]. unfold pure. rewrite bind_ret_l. cbn beta.
    rewrite Hm. cbn [negb]. rewrite bind_ret_l. cbn beta. by rewrite Hn. }
  rewrite bind_ret_l. cbn beta iota. unfold py_getitem at 1. rewrite Hname.
  unfold pure. by rewrite bind_ret_l.
Qed.


(** C1, amended: when the configuration passes validation (it is a mapping
    with a truthy [models] and a non-empty string as [nlp_engine_name]) and
    that name is not a key of the registry, [create_engine] raises the
    [ValueError] of an unknown engine, whose message shows the name and the
    advice on required packages; the only event is the registry test, so no
    constructor has been called. *)
Theorem unknown_engine_refused self items models (n : string) :
  nlp_configuration self = Some (PDict items) ->
  py_lookup items "models" = Some models -> py_truthy models = true ->
  py_lookup items "nlp_engine_name" = Some (PStr n) -> n <> EmptyString ->
  nlp_engines self !! n = None ->
  create_engine W self =
    ([RegistryContains (PStr n)],
     Raise (ValueError
              ("NLP engine '" +:+ n +:+ "' is not available. " +:+
               "Make sure you have all required packages installed"))) /\
  is_substring n (engine_not_available_msg (PStr n)) = true /\
  is_substring "Make sure you have all required packages installed"
    (engine_not_available_msg (PStr n)) = true /\
  forall ev, In ev (trace (create_engine W self)) -> is_construct ev = false.
Proof.
  intros Hconf Hmodels Hm Hname Hn Hreg.
  assert (create_engine W self =
            ([RegistryContains (PStr n)],
             Raise (ValueError (engine_not_available_msg (PStr n))))) as Hrun.
  { rewrite (create_engine_valid self items models (PStr n)); try done.
    - unfold registry_contains. cbn [py_hashable]. rewrite Hreg.
      rewrite bool_decide_eq_false_2 by (by intros [? ?]). reflexivity.
    - cbn. by destruct (String.eqb_spec n EmptyString). }
  split; [exact Hrun|].
  split; [apply engine_not_available_msg_shows|].
  split; [apply engine_not_available_msg_shows|].
  rewrite Hrun. intros ev [<-|[]]. reflexivity.
Qed.

(** The validation raises nothing but the [AttributeError] of a [get] on a
    value that is not a mapping. *)
Lemma illegal_outcome conf :
  illegal (Engine:=Engine) (NerModelConfiguration:=NerModelConfiguration) conf
  = ([], if py_truthy conf then
           match conf with
           | PDict items =>
               Ok (negb (py_truthy (default PNone (py_lookup items "models"))) ||
                   negb (py_truthy (default PNone (py_lookup items "nlp_engine_name"))))
           | _ => Raise (AttributeError
                           ("'" +:+ py_type_name conf +:+
                            "' object has no attribute 'get'"))
           end
         else Ok true).
Proof.
  unfold illegal.
  destruct (py_truthy conf) eqn:Htruthy; cbn [negb]; [|reflexivity].
  destruct conf as [| b | z | s | l | items]; try reflexivity.
  unfold pure, py_get. rewrite bind_ret_l.
  destruct (py_truthy (default PNone (py_lookup items "models")));
    cbn [negb orb]; [|reflexivity].
  by rewrite bind_ret_l.
Qed.

(** C7: a [KeyError] never leaves [create_engine]; one raised inside the
    assembly step (by a lookup, or by anything called there) surfaces as the
    [ValueError] of a wrong configuration. *)
Theorem assembly_KeyError_normalized self :
  (forall k, outcome (create_engine W self) <> Raise (KeyError k)) /\
  (forall conf name k,
     nlp_configuration self = Some conf ->
     outcome (illegal (Engine:=Engine) (NerModelConfiguration:=NerModelConfiguration) conf)
       = Ok false ->
     py_getitem conf "nlp_engine_name" = Ok name ->
     registry_contains (nlp_engines self) name = Ok true ->
     outcome (assemble W self conf name) = Raise (KeyError k) ->
     outcome (create_engine W self) = Raise (ValueError wrong_configuration_msg)).
Proof.
  split.
  - intros k. unfold create_engine.
    destruct (nlp_configuration self) as [conf|]; [|done].
    rewrite illegal_outcome, bind_outcome. cbn [outcome snd].
    destruct (py_truthy conf); [|done].
    destruct conf as [| | | | |items]; try done.
    destruct (py_truthy (default PNone (py_lookup items "models")));
      cbn [negb orb]; [|done].
    destruct (py_lookup items "nlp_engine_name") as [name|] eqn:Hname;
      cbn [default from_option id py_truthy negb]; [|done].
    destruct (py_truthy name); cbn [negb]; [|done].
    rewrite bind_outcome. unfold pure, py_getitem. rewrite Hname.
    cbn [outcome snd]. rewrite bind_outcome. unfold call, registry_contains.
    cbn [outcome snd].
    destruct (py_hashable name); [|done].
    match goal with |- context [negb ?b] => destruct b end; cbn [negb]; [|done].
    rewrite try_except_KeyError_outcome.
    by destruct (outcome (assemble _ _ _ _)) as [|[]].
  - intros conf name k Hconf Hlegal Hname Hknown Hassemble.
    unfold create_engine. rewrite Hconf, bind_outcome, Hlegal.
    rewrite bind_outcome. unfold pure. cbn [outcome snd]. rewrite Hname.
    rewrite bind_outcome. unfold call. cbn [outcome snd]. rewrite Hknown.
    cbn [negb]. by rewrite try_except_KeyError_outcome, Hassemble.
Qed.

(** C8, amended: for a configuration that passes validation and names a
    registered engine, the constructor of that engine is called with the
    [models] value of the configuration and, for [ner_model_configuration]:
    [None] when the field is absent; the entity [from_dict] returns, made
    before the call, when the field holds a truthy value; the value itself,
    unparsed, when the field is present with a falsy value. *)
Theorem constructor_arguments self items models (n : string) cls :
  nlp_configuration self = Some (PDict items) ->
  py_lookup items "models" = Some models -> py_truthy models = true ->
  py_lookup items "nlp_engine_name" = Some (PStr n) -> n <> EmptyString ->
  nlp_engines self !! n = Some cls ->
  (py_lookup items "ner_model_configuration" = None ->
   exists rest,
     trace (create_engine W self) =
       RegistryContains (PStr n) :: RegistryGetItem (PStr n)
         :: Construct cls models (NerRaw PNone) :: rest) /\
  (forall v c,
     py_lookup items "ner_model_configuration" = Some v ->
     py_truthy v = true -> from_dict W v = Ok c ->
     exists rest,
       trace (create_engine W self) =
         RegistryContains (PStr n) :: RegistryGetItem (PStr n)
           :: FromDict v :: Construct cls models (NerParsed c) :: rest) /\
  (forall v,
     py_lookup items "ner_model_configuration" = Some v ->
     py_truthy v = false ->
     exists rest,
       trace (create_engine W self) =
         RegistryContains (PStr n) :: RegistryGetItem (PStr n)
           :: Construct cls models (NerRaw v) :: rest).
Proof.
  intros Hconf Hmodels Hm Hname Hn Hreg.
  assert (py_truthy (PStr n) = true) as Hnt.
  { cbn. by destruct (String.eqb_spec n EmptyString). }
  rewrite (create_engine_valid self items models (PStr n)) by done.
  unfold registry_contains, assemble, registry_getitem, py_getitem, py_get.
  cbn [py_hashable]. rewrite Hreg, Hmodels.
  rewrite bool_decide_eq_true_2 by eauto.
  unfold call, ret, pure.
  split; [|split].
  - intros Hner. rewrite Hner. cbn [default from_option id].
    rewrite bind_trace. cbn [trace outcome fst snd app negb].
    rewrite try_except_KeyError_trace.
    repeat (rewrite bind_trace; cbn [trace outcome fst snd app py_truthy]).
    by eexists.
  - intros v c Hner Hv Hparse. rewrite Hner. cbn [default from_option id].
    rewrite bind_trace. cbn [trace outcome fst snd app negb].
    rewrite try_except_KeyError_trace.
    repeat (first [rewrite bind_trace | rewrite bind_outcome];
            cbn [trace outcome fst snd app]; rewrite ?Hv, ?Hparse).
    cbn [trace outcome fst snd app]. by eexists.
  - intros v Hner Hv. rewrite Hner. cbn [default from_option id].
    rewrite bind_trace. cbn [trace outcome fst snd app negb].
    rewrite try_except_KeyError_trace.
    repeat (rewrite bind_trace; cbn [trace outcome fst snd app]; rewrite ?Hv).
    cbn [trace outcome fst snd app]. by eexists.
Qed.

(** C6, amended: when [create_engine] has called [load] on the engine it
    built and [load] raises, the method raises that same exception, unless it
    is a [KeyError]: the [except KeyError] clause around the assembly turns
    that one into the [ValueError] of a wrong configuration. *)
Theorem load_error_propagates self engine err :
  In (LoadCall engine) (trace (create_engine W self)) ->
  load engine = Raise err ->
  outcome (create_engine W self) =
    if is_KeyError err then Raise (ValueError wrong_configuration_msg) else Raise err.
Proof.
  unfold create_engine, assemble, illegal, try_except_KeyError, bind, call, pure, ret, raise, emit.
  intros Hin Hload.
  repeat (match goal with
          | H : context [match ?x with _ => _ end] |- _ => destruct x eqn:?
          end; cbn in *; simplify_eq).
  all: repeat (destruct Hin as [Hin|Hin]; simplify_eq).
  all: try done.
  all: match goal with
       | H1 : load ?e = _, H2 : load ?e = _ |- _ => rewrite H1 in H2; by simplify_eq
       end.
Qed.

(** A provider whose configuration attribute was never assigned. *)
Lemma create_engine_unassigned self :
  nlp_configuration self = None ->
  create_engine W self =
    ([], Raise (AttributeError
                  "'NlpEngineProvider' object has no attribute 'nlp_configuration'")).
Proof. intros Hconf. unfold create_engine. by rewrite Hconf. Qed.

End Creation.

(** * The properties at work on the sample environment *)

(** Scenario A: the spacy configuration, spacy being available, yields a
    loaded spacy engine holding the English model. *)
Example create_spacy_engine :
  provide sample_world None None (PDict (spacy_configuration PNone))
    = ([Log DEBUG LoadedAvailableEngines;
        RegistryContains (PStr "spacy");
        RegistryGetItem (PStr "spacy");
        Construct (SpacyNlpEngine sample_world) english_models (NerRaw PNone);
        LoadCall {| sample_name := "spacy";
                    sample_load_error := None;
                    sample_languages := ["en"];
                    sample_models := english_models;
                    sample_ner_parsed := false |};
        Log INFO (CreatedEngine "spacy" ["en"])],
       Ok {| sample_name := "spacy";
             sample_load_error := None;
             sample_languages := ["en"];
             sample_models := english_models;
             sample_ner_parsed := false |}).
Proof. reflexivity. Qed.

(** An inline configuration that is falsy without being [None] leaves the
    provider without a configuration attribute, whatever the environment, and
    [create_engine] stops on the missing attribute. *)
Lemma falsy_inline_configuration_unassigned
    {Engine : Type} `{!NlpEngine Engine} {NerModelConfiguration : Type}
    (W : World Engine NerModelConfiguration)
    (engines : option (list (EngineClass Engine NerModelConfiguration)))
    (conf : PyVal) :
  conf <> PNone -> py_truthy conf = false ->
  provide W engines None conf
    = ([Log DEBUG LoadedAvailableEngines],
       Raise (AttributeError
                "'NlpEngineProvider' object has no attribute 'nlp_configuration'")).
Proof.
  intros Hconf Hfalsy. unfold provide.
  rewrite init_inline by done. by rewrite Hfalsy.
Qed.

(** C1 as stated fails: a configuration that names stanza, absent from the
    registry, but has no [models], is refused as an illegal configuration,
    with a message that does not show the name. *)
Lemma unknown_engine_without_models :
  __init__ sample_world None None (PDict [("nlp_engine_name", PStr "stanza")])
    = ([Log DEBUG LoadedAvailableEngines],
       Ok (sample_provider (Some (PDict [("nlp_engine_name", PStr "stanza")])))) /\
  nlp_engines (sample_provider (Some (PDict [("nlp_engine_name", PStr "stanza")])))
    !! "stanza" = None /\
  create_engine sample_world
    (sample_provider (Some (PDict [("nlp_engine_name", PStr "stanza")])))
    = ([], Raise (ValueError illegal_configuration_msg)) /\
  illegal_configuration_msg <> engine_not_available_msg (PStr "stanza") /\
  is_substring "stanza" illegal_configuration_msg = false.
Proof. repeat split; try reflexivity. discriminate. Qed.

Lemma unknown_engine_refused_witness :
  create_engine sample_world (sample_provider (Some (PDict stanza_configuration))) =
    ([RegistryContains (PStr "stanza")],
     Raise (ValueError
              ("NLP engine '" +:+ "stanza" +:+ "' is not available. " +:+
               "Make sure you have all required packages installed"))).
Proof.
  apply (unknown_engine_refused sample_world
           (sample_provider (Some (PDict stanza_configuration)))
           stanza_configuration english_models "stanza");
    [reflexivity | reflexivity | reflexivity | reflexivity | discriminate | reflexivity].
Defined.

(** C2 fails on the code: built from the empty inline configuration [{}], the
    provider never assigns its configuration attribute, and [create_engine]
    raises [AttributeError] where an absent configuration calls for the
    [ValueError] of an illegal configuration. *)
Theorem empty_inline_configuration_unassigned :
  __init__ sample_world None None (PDict [])
    = ([Log DEBUG LoadedAvailableEngines], Ok (sample_provider None)) /\
  provide sample_world None None (PDict [])
    = ([Log DEBUG LoadedAvailableEngines],
       Raise (AttributeError
                "'NlpEngineProvider' object has no attribute 'nlp_configuration'")).
Proof. split; reflexivity. Qed.

(** C3 as stated fails: with the empty inline configuration [{}] and a file
    path both supplied, the constructor raises nothing, asks the file system
    about the path and builds the provider from that source. *)
Lemma empty_inline_with_conf_file_accepted :
  __init__ sample_world None (Some (StrPath "conf.yaml")) (PDict [])
    = ([Log DEBUG LoadedAvailableEngines;
        PathExists "conf.yaml";
        Log WARNING (ConfFileNotFound "conf.yaml");
        Log WARNING MissingNerModelConfiguration],
       Ok (sample_provider (Some default_nlp_configuration))) /\
  is_file_io (Engine:=SampleEngine) (NerModelConfiguration:=PyVal)
    (PathExists "conf.yaml") = true.
Proof. split; reflexivity. Qed.

Lemma conflicting_sources_refused_witness :
  __init__ sample_world None (Some (StrPath "conf.yaml")) (PDict stanza_configuration)
    = ([Log DEBUG LoadedAvailableEngines], Raise (ValueError conflicting_sources_msg)).
Proof.
  apply (conflicting_sources_refused sample_world None (Some (StrPath "conf.yaml"))
           (PDict stanza_configuration)); reflexivity.
Defined.

(** C4 as stated fails: for the empty candidate sequence the registry is not
    empty; it holds spacy, which is no candidate of the sequence. *)
Lemma empty_candidates_registry_not_empty :
  __init__ sample_world (Some []) None (PDict stanza_configuration)
    = ([Log DEBUG LoadedAvailableEngines],
       Ok (sample_provider (Some (PDict stanza_configuration)))) /\
  nlp_engines (sample_provider (Some (PDict stanza_configuration))) !! "spacy"
    = Some (SpacyNlpEngine sample_world) /\
  last (List.filter (registers (Engine:=SampleEngine) (NerModelConfiguration:=PyVal) "spacy") [])
    = None.
Proof. repeat split; reflexivity. Qed.

Lemma registry_of_supplied_candidates_witness :
  nlp_engines (candidates_provider (Some (PDict stanza_configuration))) !! "spacy"
    = last (List.filter (registers "spacy") sample_candidates) /\
  nlp_engines (candidates_provider (Some (PDict stanza_configuration))) !! "stanza"
    = last (List.filter (registers "stanza") sample_candidates).
Proof.
  destruct (registry_of_supplied_candidates sample_world sample_candidates None
              (PDict stanza_configuration) [Log DEBUG LoadedAvailableEngines]
              (candidates_provider (Some (PDict stanza_configuration))))
    as (Hlookup & _ & _); [discriminate | reflexivity |].
  split; apply Hlookup.
Defined.



(** C6 as stated fails: a [KeyError] raised by [load] does not reach the
    caller; [create_engine] raises the [ValueError] of a wrong configuration
    in its place. *)
Lemma load_KeyError_replaced :
  In (LoadCall (failing_engine (KeyError "en")))
     (trace (provide (failing_load_world (KeyError "en")) None None PNone)) /\
  load (failing_engine (KeyError "en")) = Raise (KeyError "en") /\
  outcome (provide (failing_load_world (KeyError "en")) None None PNone)
    = Raise (ValueError wrong_configuration_msg).
Proof. split; [|split]; [|reflexivity|reflexivity]. vm_compute. tauto. Qed.

Lemma load_error_propagates_witness :
  outcome (create_engine (failing_load_world (OSError "model not found"))
             (failing_provider (OSError "model not found")))
    = Raise (OSError "model not found").
Proof.
  apply (load_error_propagates (failing_load_world (OSError "model not found"))
           (failing_provider (OSError "model not found"))
           (failing_engine (OSError "model not found"))
           (OSError "model not found")).
  - right. right. right. left. reflexivity.
  - reflexivity.
Defined.

Lemma assembly_KeyError_normalized_witness :
  outcome (create_engine (failing_load_world (KeyError "en"))
             (failing_provider (KeyError "en")))
    = Raise (ValueError wrong_configuration_msg).
Proof.
  destruct (assembly_KeyError_normalized (failing_load_world (KeyError "en"))
              (failing_provider (KeyError "en"))) as [_ Hnormalized].
  apply (Hnormalized default_nlp_configuration (PStr "spacy") "en");
    reflexivity.
Defined.

(** C8 as stated fails: a [ner_model_configuration] that is present but
    empty is not parsed; the constructor receives the empty mapping itself
    and [from_dict] is not called. *)
Lemma empty_ner_configuration_not_parsed :
  py_lookup (spacy_configuration (PDict [])) "ner_model_configuration"
    = Some (PDict []) /\
  trace (create_engine sample_world
           (sample_provider (Some (PDict (spacy_configuration (PDict []))))))
    = [RegistryContains (PStr "spacy");
       RegistryGetItem (PStr "spacy");
       Construct (SpacyNlpEngine sample_world) english_models (NerRaw (PDict []));
       LoadCall {| sample_name := "spacy";
               sample_load_error := None;
               sample_languages := ["en"];
               sample_models := english_models;
               sample_ner_parsed := false |};
       Log INFO (CreatedEngine "spacy" ["en"])].
Proof. split; reflexivity. Qed.

Lemma constructor_arguments_witness :
  exists rest,
    trace (create_engine sample_world
             (sample_provider
                (Some (PDict (spacy_configuration
                                (PDict [("labels_to_ignore", PList [PStr "O"])]))))))
      = RegistryContains (PStr "spacy") :: RegistryGetItem (PStr "spacy")
          :: FromDict (PDict [("labels_to_ignore", PList [PStr "O"])])
          :: Construct (SpacyNlpEngine sample_world) english_models
               (NerParsed (PDict [("labels_to_ignore", PList [PStr "O"])]))
          :: rest.
Proof.
  destruct (constructor_arguments sample_world
              (sample_provider
                 (Some (PDict (spacy_configuration
                                 (PDict [("labels_to_ignore", PList [PStr "O"])])))))
              (spacy_configuration (PDict [("labels_to_ignore", PList [PStr "O"])]))
              english_models "spacy" (SpacyNlpEngine sample_world))
    as (_ & Hparsed & _);
    [reflexivity | reflexivity | reflexivity | reflexivity | discriminate | reflexivity |].
  apply Hparsed; reflexivity.
Defined.

(** C9 as stated fails: built from the empty inline configuration [{}], the
    provider adopts nothing: it holds no configuration, not the object. *)
Lemma empty_inline_configuration_not_adopted :
  __init__ sample_world None None (PDict [])
    = ([Log DEBUG LoadedAvailableEngines], Ok (sample_provider None)) /\
  nlp_configuration (sample_provider None) = None /\
  nlp_configuration (sample_provider None) <> Some (PDict []).
Proof. repeat split; try reflexivity. discriminate. Qed.

Lemma inline_configuration_adopted_witness :
  exists self self',
    __init__ sample_world None None (PDict stanza_configuration)
      = ([Log DEBUG LoadedAvailableEngines], Ok self) /\
    __init__ (failing_load_world (KeyError "en")) (Some sample_candidates) None
      (PDict stanza_configuration) = ([Log DEBUG LoadedAvailableEngines], Ok self') /\
    nlp_configuration self = Some (PDict stanza_configuration) /\
    nlp_configuration self' = Some (PDict stanza_configuration) /\
    nlp_configuration self = nlp_configuration self'.
Proof.
  apply (inline_configuration_adopted sample_world (failing_load_world (KeyError "en"))
           None (Some sample_candidates) (PDict stanza_configuration)).
  reflexivity.
Defined.

Lemma empty_candidates_use_defaults_witness :
  nlp_engines (sample_provider (Some (PDict stanza_configuration)))
    = registry_of [SpacyNlpEngine sample_world; StanzaNlpEngine sample_world;
                   TransformersNlpEngine sample_world].
Proof.
  destruct (empty_candidates_use_defaults sample_world None (PDict stanza_configuration))
    as [_ Hregistry].
  apply (Hregistry [Log DEBUG LoadedAvailableEngines]
           (sample_provider (Some (PDict stanza_configuration)))).
  reflexivity.
Defined.

(** * Further properties of the configuration resolver *)

Section Resolution.

Context {Engine : Type} `{!NlpEngine Engine} {NerModelConfiguration : Type}.
Variable W : World Engine NerModelConfiguration.
Implicit Types (engines : option (list (EngineClass Engine NerModelConfiguration))).
Implicit Types (conf_file : option PathLike) (conf : PyVal) (p : PathLike).

(** [_read_nlp_conf] on a path that is there. *)
Lemma read_nlp_conf_present p :
  exists_ W (path_text p) = Ok true ->
  _read_nlp_conf W p =
    (PathExists (path_text p) :: OpenAndLoad (path_text p)
       :: match safe_load W (path_text p) with
          | Ok c => match py_contains "ner_model_configuration" c with
                    | Ok false => [Log WARNING MissingNerModelConfiguration]
                    | _ => []
                    end
          | Raise _ => []
          end,
     match safe_load W (path_text p) with
     | Ok c => match py_contains "ner_model_configuration" c with
               | Ok _ => Ok c
               | Raise e => Raise e
               end
     | Raise e => Raise e
     end).
Proof.
  intros Hthere. unfold _read_nlp_conf. rewrite Hthere.
  destruct (safe_load W (path_text p)) as [c|e]; [|reflexivity].
  unfold call, pure. cbn [bind negb app].
  by destruct (py_contains "ner_model_configuration" c) as [[]|e].
Qed.

(** The constructor given a path that counts as none (the empty [str]). *)
Lemma init_falsy_path engines p conf :
  path_truthy p = false ->
  __init__ W engines (Some p) conf =
    ([Log DEBUG LoadedAvailableEngines],
     Ok {| nlp_engines := registry_of (effective_candidates W engines);
           nlp_configuration := if py_truthy conf then Some conf else None |}).
Proof.
  intros Hp. unfold __init__. cbn [conf_file_truthy]. rewrite Hp.
  by destruct conf.
Qed.

(** The constructor given two sources that both count. *)
Lemma init_conflict engines conf_file conf :
  conf_file_truthy conf_file = true -> py_truthy conf = true ->
  __init__ W engines conf_file conf =
    ([Log DEBUG LoadedAvailableEngines], Raise (ValueError conflicting_sources_msg)).
Proof. intros Hfile Hconf. unfold __init__. by rewrite Hfile, Hconf. Qed.

(** [_read_nlp_conf] when the existence test itself raises. *)
Lemma read_nlp_conf_test_raises p e :
  exists_ W (path_text p) = Raise e ->
  _read_nlp_conf W p = ([PathExists (path_text p)], Raise e).
Proof. intros Hraises. unfold _read_nlp_conf. by rewrite Hraises. Qed.

(** The events of [_read_nlp_conf] are log lines and file system calls on
    the path it was given. *)
Lemma read_nlp_conf_events p ev :
  In ev (trace (_read_nlp_conf W p)) ->
  ev = PathExists (path_text p) \/ ev = OpenAndLoad (path_text p) \/
  exists record, ev = Log WARNING record.
Proof.
  destruct (exists_ W (path_text p)) as [[]|e] eqn:Hthere.
  - rewrite read_nlp_conf_present by done. cbn [trace fst].
    intros [<-|[<-|Hin]]; [by left|by right; left|].
    right; right.
    destruct (safe_load W (path_text p)) as [c|e]; [|destruct Hin].
    destruct (py_contains _ c) as [[]|e]; try destruct Hin as [<-|[]]; try done.
    by eexists.
  - rewrite read_nlp_conf_missing by done. cbn [trace fst].
    intros [<-|[<-|[<-|[]]]]; [by left|right; right; by eexists..].
  - rewrite (read_nlp_conf_test_raises p e) by done. cbn [trace fst].
    intros [<-|[]]. by left.
Qed.




(** X4: a constructed provider lacks its configuration attribute exactly
    when neither argument counts as given (both falsy) and yet they are not
    both [None]: an empty inline configuration or an empty path string. *)
Theorem init_attribute_unassigned_iff engines conf_file conf t self :
  __init__ W engines conf_file conf = (t, Ok self) ->
  (nlp_configuration self = None <->
   conf_file_truthy conf_file = false /\ py_truthy conf = false /\
   ~ (conf_file = None /\ conf = PNone)).
Proof.
  destruct conf_file as [p|].
  - destruct (path_truthy p) eqn:Hp.
    + destruct (py_truthy conf) eqn:Hconf.
      * by rewrite init_conflict.
      * rewrite init_conf_file by done.
        destruct (outcome (_read_nlp_conf W p)); [|done].
        intros [= _ <-]. cbn [nlp_configuration conf_file_truthy].
        rewrite Hp. split; [done|]. by intros [? _].
    + rewrite init_falsy_path by done. intros [= _ <-].
      cbn [nlp_configuration conf_file_truthy]. rewrite Hp.
      destruct (py_truthy conf); split; try done.
      * by intros (_ & ? & _).
      * intros _. split; [done|]. split; [done|]. by intros [? _].
  - assert (conf = PNone \/ conf <> PNone) as [->|Hconf]
      by (destruct conf; [by left | by right ..]).
    + rewrite init_default.
      destruct (outcome (_read_nlp_conf W _)); [|done].
      intros [= _ <-]. cbn [nlp_configuration]. split; [done|].
      intros (_ & _ & Hboth). by destruct Hboth.
    + rewrite init_inline by done. intros [= _ <-].
      cbn [nlp_configuration conf_file_truthy].
      destruct (py_truthy conf); split; try done.
      * by intros (_ & ? & _).
      * intros _. split; [done|]. split; [done|]. by intros [_ ?].
Qed.

(** [_read_nlp_conf] starts by asking whether the path exists. *)
Lemma read_nlp_conf_first p :
  exists rest, trace (_read_nlp_conf W p) = PathExists (path_text p) :: rest.
Proof.
  destruct (exists_ W (path_text p)) as [[]|e] eqn:Hthere.
  - rewrite read_nlp_conf_present by done. by eexists.
  - rewrite read_nlp_conf_missing by done. by eexists.
  - rewrite (read_nlp_conf_test_raises p e) by done. by eexists.
Qed.

(** It opens the file only when the path exists. *)
Lemma read_nlp_conf_open p q :
  In (OpenAndLoad q) (trace (_read_nlp_conf W p)) ->
  q = path_text p /\ exists_ W q = Ok true.
Proof.
  destruct (exists_ W (path_text p)) as [[]|e] eqn:Hthere.
  - intros Hin. apply read_nlp_conf_events in Hin as [?|[[= ->]|[? ?]]]; done.
  - rewrite read_nlp_conf_missing by done. intros [?|[?|[?|[]]]]; done.
  - rewrite (read_nlp_conf_test_raises p e) by done. intros [?|[]]; done.
Qed.

(** The shapes of the trace of the constructor. *)
Lemma init_trace engines conf_file conf :
  trace (__init__ W engines conf_file conf) = [Log DEBUG LoadedAvailableEngines] \/
  (exists p, conf_file = Some p /\ path_truthy p = true /\ py_truthy conf = false /\
     trace (__init__ W engines conf_file conf) =
       Log DEBUG LoadedAvailableEngines :: trace (_read_nlp_conf W p)) \/
  (conf_file = None /\ conf = PNone /\
     trace (__init__ W engines conf_file conf) =
       Log DEBUG LoadedAvailableEngines
         :: Log DEBUG (ReadingDefaultConf (path_text (_get_full_conf_path W "default.yaml")))
         :: trace (_read_nlp_conf W (_get_full_conf_path W "default.yaml"))).
Proof.
  destruct conf_file as [p|].
  - destruct (path_truthy p) eqn:Hp.
    + destruct (py_truthy conf) eqn:Hconf.
      * left. by rewrite init_conflict.
      * right; left. exists p. by rewrite init_conf_file.
    + left. by rewrite init_falsy_path.
  - assert (conf = PNone \/ conf <> PNone) as [->|Hconf]
      by (destruct conf; [by left | by right ..]).
    + right; right. by rewrite init_default.
    + left. by rewrite init_inline.
Qed.

(** X5: constructing a provider reaches no engine: its events are log lines
    and file system calls, never a registry lookup, a call of the NER
    configuration parser, of a constructor or of [load]. *)
Theorem init_touches_no_engine engines conf_file conf ev :
  In ev (trace (__init__ W engines conf_file conf)) ->
  is_engine_effect ev = false /\ is_registry_event ev = false.
Proof.
  destruct (init_trace engines conf_file conf)
    as [->|[(p & _ & _ & _ & ->)|(_ & _ & ->)]].
  - by intros [<-|[]].
  - intros [<-|Hin]; [done|].
    by apply read_nlp_conf_events in Hin as [->|[->|[? ->]]].
  - intros [<-|[<-|Hin]]; [done..|].
    by apply read_nlp_conf_events in Hin as [->|[->|[? ->]]].
Qed.

(** X6: the constructor consults the file system exactly when a truthy path
    comes with a falsy inline configuration or when both arguments are
    [None]; with an inline configuration that counts, or an empty path
    string, no file is looked for. *)
Theorem init_file_io_iff engines conf_file conf :
  (exists ev, In ev (trace (__init__ W engines conf_file conf)) /\ is_file_io ev = true) <->
  (conf_file_truthy conf_file = true /\ py_truthy conf = false) \/
  (conf_file = None /\ conf = PNone).
Proof.
  split.
  - intros (ev & Hin & Hio).
    destruct (init_trace engines conf_file conf)
      as [Htrace|[(p & -> & Hp & Hconf & _)|(-> & -> & _)]].
    + rewrite Htrace in Hin. by destruct Hin as [<-|[]].
    + by left.
    + by right.
  - intros [[Hfile Hconf]|[-> ->]].
    + destruct conf_file as [p|]; [|done]. cbn in Hfile.
      rewrite init_conf_file by done. cbn [trace fst].
      destruct (read_nlp_conf_first p) as [rest ->].
      exists (PathExists (path_text p)). split; [|done]. right. by left.
    + rewrite init_default. cbn [trace fst].
      destruct (read_nlp_conf_first (_get_full_conf_path W "default.yaml")) as [rest ->].
      eexists. split; [right; right; by left|done].
Qed.

(** X7: the constructor opens a file only after finding that its path
    exists, and the path is the one the caller gave or, with no argument at
    all, [default.yaml] in the directory [conf] of the package. *)
Theorem init_opens_only_existing engines conf_file conf q :
  In (OpenAndLoad q) (trace (__init__ W engines conf_file conf)) ->
  exists_ W q = Ok true /\
  (conf_file = Some (StrPath q) \/ conf_file = Some (PathObj q) \/
   (conf_file = None /\
    q = path_join (path_join (package_dir W) "conf") "default.yaml")).
Proof.
  destruct (init_trace engines conf_file conf)
    as [->|[(p & -> & _ & _ & ->)|(-> & _ & ->)]].
  - by intros [?|[]].
  - intros [?|Hin]; [done|]. apply read_nlp_conf_open in Hin as [-> Hthere].
    split; [done|]. destruct p; auto.
  - intros [?|[?|Hin]]; [done..|]. apply read_nlp_conf_open in Hin as [-> Hthere].
    split; [done|]. right; right. done.
Qed.

End Resolution.

(** * Further properties of engine creation *)

Section Assembly.

Context {Engine : Type} `{!NlpEngine Engine} {NerModelConfiguration : Type}.
Variable W : World Engine NerModelConfiguration.
Implicit Types (self : NlpEngineProvider Engine NerModelConfiguration).
Implicit Types (conf models name : PyVal) (items : list (string * PyVal)).

(** A configuration passes validation exactly when it is a mapping with a
    truthy [models] and a truthy [nlp_engine_name]. *)
Lemma illegal_false_inv conf :
  outcome (illegal (Engine:=Engine) (NerModelConfiguration:=NerModelConfiguration) conf)
    = Ok false ->
  exists items models name,
    conf = PDict items /\
    py_lookup items "models" = Some models /\ py_truthy models = true /\
    py_lookup items "nlp_engine_name" = Some name /\ py_truthy name = true.
Proof.
  rewrite illegal_outcome. cbn [outcome snd].
  destruct (py_truthy conf); [|done].
  destruct conf as [| | | | |items]; try done.
  intros [= Hboth]. apply orb_false_iff in Hboth as [Hm Hn].
  apply negb_false_iff in Hm, Hn.
  destruct (py_lookup items "models") as [models|] eqn:Hmodels; [|done].
  destruct (py_lookup items "nlp_engine_name") as [name|] eqn:Hname; [|done].
  cbn [default from_option id] in Hm, Hn.
  by exists items, models, name.
Qed.

(** The registry test answers yes only for a string that is a key. *)
Lemma registry_contains_true reg name :
  registry_contains (Engine:=Engine) (NerModelConfiguration:=NerModelConfiguration)
    reg name = Ok true ->
  exists n cls, name = PStr n /\ reg !! n = Some cls.
Proof.
  unfold registry_contains. destruct (py_hashable name); [|done].
  destruct name as [| | |n| |]; try done.
  intros [= Hsome]. apply bool_decide_eq_true in Hsome as [cls Hcls].
  by exists n, cls.
Qed.

(** [except KeyError] with a handler that raises returns only what the body
    returns. *)
Lemma try_except_KeyError_Ok_inv {A} (m : M Engine NerModelConfiguration A) err t a :
  try_except_KeyError m (raise err) = (t, Ok a) -> m = (t, Ok a).
Proof. by destruct m as [t' [a'|[]]]. Qed.

(** X8: when [create_engine] returns an engine, the configuration is a
    mapping with truthy [models] and a string [nlp_engine_name] that is a key
    of the registry; the class registered there was called once, with those
    models and the NER argument (the raw falsy value, or the parsed entity of
    a truthy one), and the engine returned is the one its [load] gave back,
    after the line on the loaded languages was logged. *)
Theorem create_engine_success_inv self t e :
  create_engine W self = (t, Ok e) ->
  exists items models n cls ner e0 langs,
    nlp_configuration self = Some (PDict items) /\
    py_lookup items "models" = Some models /\ py_truthy models = true /\
    py_lookup items "nlp_engine_name" = Some (PStr n) /\
    nlp_engines self !! n = Some cls /\
    (ner = NerRaw (default PNone (py_lookup items "ner_model_configuration")) /\
     py_truthy (default PNone (py_lookup items "ner_model_configuration")) = false \/
     exists c, ner = NerParsed c /\
       py_truthy (default PNone (py_lookup items "ner_model_configuration")) = true /\
       from_dict W (default PNone (py_lookup items "ner_model_configuration")) = Ok c) /\
    construct cls models ner = Ok e0 /\ load e0 = Ok e /\ nlp_keys e = Ok langs /\
    t = (RegistryContains (PStr n) :: RegistryGetItem (PStr n)
           :: match ner with
              | NerParsed _ =>
                  [FromDict (default PNone (py_lookup items "ner_model_configuration"))]
              | NerRaw _ => []
              end
           ++ [Construct cls models ner; LoadCall e0;
               Log INFO (CreatedEngine (instance_engine_name e) langs)])%list.
Proof.
  unfold create_engine.
  destruct (nlp_configuration self) as [conf|] eqn:Hconf; [|done].
  intros Hrun.
  apply bind_Ok_inv in Hrun as (t1 & bad & t2 & Hillegal & Hrun & ->).
  destruct bad; [done|].
  assert (outcome (illegal (Engine:=Engine)
                     (NerModelConfiguration:=NerModelConfiguration) conf) = Ok false)
    as Hlegal by (by rewrite Hillegal).
  rewrite illegal_outcome in Hillegal. injection Hillegal as <- _.
  apply illegal_false_inv in Hlegal
    as (items & models & name & -> & Hmodels & Hm & Hname & Hn).
  apply bind_Ok_inv in Hrun as (t3 & name' & t4 & Hget & Hrun & ->).
  unfold pure, py_getitem in Hget. rewrite Hname in Hget. injection Hget as <- <-.
  apply bind_Ok_inv in Hrun as (t5 & known & t6 & Hknown & Hrun & ->).
  destruct known; [|done]. cbn [negb] in Hrun.
  unfold call in Hknown. injection Hknown as <- Hknown.
  apply registry_contains_true in Hknown as (n & cls & -> & Hcls).
  apply try_except_KeyError_Ok_inv in Hrun. unfold assemble in Hrun.
  apply bind_Ok_inv in Hrun as (? & cls' & t7 & Hitem & Hrun & ->).
  unfold call, registry_getitem in Hitem. cbn [py_hashable] in Hitem.
  rewrite Hcls in Hitem. injection Hitem as <- <-.
  apply bind_Ok_inv in Hrun as (? & models' & t8 & Hmodels' & Hrun & ->).
  unfold pure, py_getitem in Hmodels'. rewrite Hmodels in Hmodels'.
  injection Hmodels' as <- <-.
  apply bind_Ok_inv in Hrun as (? & v & t9 & Hv & Hrun & ->).
  unfold pure, py_get in Hv. injection Hv as <- <-.
  apply bind_Ok_inv in Hrun as (tner & ner & t10 & Hner & Hrun & ->).
  apply bind_Ok_inv in Hrun as (? & e0 & t11 & Hbuild & Hrun & ->).
  unfold call in Hbuild. injection Hbuild as <- Hbuild.
  apply bind_Ok_inv in Hrun as (? & e' & t12 & Hload & Hrun & ->).
  unfold call in Hload. injection Hload as <- Hload.
  apply bind_Ok_inv in Hrun as (? & langs & t13 & Hkeys & Hrun & ->).
  unfold pure in Hkeys. injection Hkeys as <- Hkeys.
  apply bind_Ok_inv in Hrun as (? & [] & t14 & Hlog & Hrun & ->).
  unfold emit in Hlog. injection Hlog as <-.
  unfold ret in Hrun. injection Hrun as <- <-.
  exists items, models, n, cls, ner, e0, langs.
  do 5 (split; [done|]).
  destruct (py_truthy (default PNone (py_lookup items "ner_model_configuration")))
    eqn:Htruthy.
  - apply bind_Ok_inv in Hner as (? & c & ? & Hparse & Hret & ->).
    unfold call in Hparse. injection Hparse as <- Hparse.
    unfold ret in Hret. injection Hret as <- <-.
    split; [right; by exists c|]. by do 3 (split; [done|]).
  - unfold ret in Hner. injection Hner as <- <-.
    split; [by left|]. by do 3 (split; [done|]).
Qed.

(** Runs [create_engine] symbolically: one case for each way each step can
    end. *)
Ltac create_engine_cases :=
  unfold create_engine, assemble, illegal, try_except_KeyError,
    bind, call, pure, ret, raise, emit in *;
  repeat (match goal with
          | H : context [match ?x with _ => _ end] |- _ => destruct x eqn:?
          end; cbn in *; simplify_eq).

(** X9: when the constructor of the engine class raises, [create_engine]
    raises that exception (a [KeyError] becoming the [ValueError] of a wrong
    configuration) and [load] is never called. *)
Theorem constructor_error_propagates self cls models ner err :
  In (Construct cls models ner) (trace (create_engine W self)) ->
  construct cls models ner = Raise err ->
  outcome (create_engine W self) =
    (if is_KeyError err then Raise (ValueError wrong_configuration_msg) else Raise err) /\
  forall ev, In ev (trace (create_engine W self)) -> is_load ev = false.
Proof.
  intros Hin Hbuild. create_engine_cases.
  all: repeat (destruct Hin as [Hin|Hin]; simplify_eq).
  all: try done.
  all: match goal with
       | H1 : construct ?c ?m ?a = _, H2 : construct ?c ?m ?a = _ |- _ =>
           rewrite H1 in H2; simplify_eq
       end.
  all: split; [done|].
  all: intros ev Hev; repeat (destruct Hev as [<-|Hev]; [done|]); destruct Hev.
Qed.

(** X10: when [NerModelConfiguration.from_dict] raises on the NER section,
    [create_engine] raises that exception (a [KeyError] becoming the
    [ValueError] of a wrong configuration) and no engine constructor is
    called. *)
Theorem ner_parse_error_propagates self v err :
  In (FromDict v) (trace (create_engine W self)) ->
  from_dict W v = Raise err ->
  outcome (create_engine W self) =
    (if is_KeyError err then Raise (ValueError wrong_configuration_msg) else Raise err) /\
  forall ev, In ev (trace (create_engine W self)) -> is_construct ev = false.
Proof.
  intros Hin Hparse. create_engine_cases.
  all: repeat (destruct Hin as [Hin|Hin]; simplify_eq).
  all: try done.
  all: match goal with
       | H1 : from_dict W ?x = _, H2 : from_dict W ?x = _ |- _ =>
           rewrite H1 in H2; simplify_eq
       end.
  all: split; [done|].
  all: intros ev Hev; repeat (destruct Hev as [<-|Hev]; [done|]); destruct Hev.
Qed.

(** X11: when [load] succeeds but the languages of [engine.nlp] cannot be
    read for the log line, [create_engine] raises that exception (a
    [KeyError] becoming the [ValueError] of a wrong configuration): the
    loaded engine is not returned and the line is not logged. *)
Theorem language_summary_error_propagates self e0 e err :
  In (LoadCall e0) (trace (create_engine W self)) ->
  load e0 = Ok e ->
  nlp_keys e = Raise err ->
  outcome (create_engine W self) =
    (if is_KeyError err then Raise (ValueError wrong_configuration_msg) else Raise err) /\
  last (trace (create_engine W self)) = Some (LoadCall e0).
Proof.
  intros Hin Hload Hkeys. create_engine_cases.
  all: repeat (destruct Hin as [Hin|Hin]; simplify_eq).
  all: try done.
  all: repeat match goal with
       | H1 : load ?x = _, H2 : load ?x = _ |- _ => rewrite H1 in H2; simplify_eq
       | H1 : nlp_keys ?x = _, H2 : nlp_keys ?x = _ |- _ => rewrite H1 in H2; simplify_eq
       end.
  all: done.
Qed.

(** X12: an [nlp_engine_name] that is a non-empty list or mapping passes
    validation and then makes the registry test raise [TypeError], since it
    cannot be hashed; the test is the only event, so no constructor is
    called. *)
Theorem unhashable_engine_name_rejected self items models name :
  nlp_configuration self = Some (PDict items) ->
  py_lookup items "models" = Some models -> py_truthy models = true ->
  py_lookup items "nlp_engine_name" = Some name -> py_truthy name = true ->
  py_hashable name = false ->
  create_engine W self =
    ([RegistryContains name],
     Raise (TypeError ("unhashable type: '" +:+ py_type_name name +:+ "'"))).
Proof.
  intros Hconf Hmodels Hm Hname Hn Hunhashable.
  rewrite (create_engine_valid W self items models name) by done.
  unfold registry_contains. by rewrite Hunhashable.
Qed.

(** X13: a configuration that is truthy but not a mapping (a list or a
    string read from a file, say) makes [create_engine] raise the
    [AttributeError] of the missing [get], before any lookup. *)
Theorem non_mapping_configuration_rejected self conf :
  nlp_configuration self = Some conf ->
  py_truthy conf = true ->
  (forall items, conf <> PDict items) ->
  create_engine W self =
    ([], Raise (AttributeError
                  ("'" +:+ py_type_name conf +:+ "' object has no attribute 'get'"))).
Proof.
  intros Hconf Htruthy Hshape. unfold create_engine.
  rewrite Hconf, illegal_outcome, Htruthy.
  destruct conf as [| | | | |items]; try reflexivity. by destruct (Hshape items).
Qed.

(** X14: whatever the provider, [create_engine] never touches the file
    system, and it calls at most one constructor, at most one [load] and at
    most once the NER configuration parser. *)
Theorem create_engine_effects_bounded self :
  (forall ev, In ev (trace (create_engine W self)) -> is_file_io ev = false) /\
  length (List.filter is_construct (trace (create_engine W self))) <= 1 /\
  length (List.filter is_load (trace (create_engine W self))) <= 1 /\
  length (List.filter is_engine_effect (trace (create_engine W self))) <= 3.
Proof.
  destruct (create_engine W self) as [t r] eqn:Hrun. cbn [trace fst].
  create_engine_cases.
  all: split; [intros ev Hev; repeat (destruct Hev as [<-|Hev]; [done|]); destruct Hev
              | cbn; lia].
Qed.

(** X15: once the validation has passed, the subscripts of [create_engine]
    on the configuration cannot miss, and once the registry test has said
    yes, neither can the subscript on the registry: the provider's own
    lookups never raise [KeyError]. *)
Theorem validated_lookups_succeed self conf :
  outcome (illegal (Engine:=Engine) (NerModelConfiguration:=NerModelConfiguration) conf)
    = Ok false ->
  exists name models,
    py_getitem conf "nlp_engine_name" = Ok name /\ py_truthy name = true /\
    py_getitem conf "models" = Ok models /\ py_truthy models = true /\
    (registry_contains (nlp_engines self) name = Ok true ->
     exists cls, registry_getitem (nlp_engines self) name = Ok cls).
Proof.
  intros Hlegal.
  apply illegal_false_inv in Hlegal
    as (items & models & name & -> & Hmodels & Hm & Hname & Hn).
  exists name, models. unfold py_getitem. rewrite Hmodels, Hname.
  do 4 (split; [done|]).
  intros Hknown. apply registry_contains_true in Hknown as (n & cls & -> & Hcls).
  exists cls. unfold registry_getitem. cbn [py_hashable]. by rewrite Hcls.
Qed.

(** X16: the conditions of success are sufficient: for a validated
    configuration naming a registered class, if the NER section is falsy or
    parses, the constructor returns an instance, its [load] returns and its
    languages can be read, then [create_engine] returns the loaded engine
    after exactly these calls, in this order. *)
Theorem create_engine_succeeds self items models (n : string) cls ner e0 e langs :
  nlp_configuration self = Some (PDict items) ->
  py_lookup items "models" = Some models -> py_truthy models = true ->
  py_lookup items "nlp_engine_name" = Some (PStr n) -> n <> EmptyString ->
  nlp_engines self !! n = Some cls ->
  (ner = NerRaw (default PNone (py_lookup items "ner_model_configuration")) /\
   py_truthy (default PNone (py_lookup items "ner_model_configuration")) = false \/
   exists c, ner = NerParsed c /\
     py_truthy (default PNone (py_lookup items "ner_model_configuration")) = true /\
     from_dict W (default PNone (py_lookup items "ner_model_configuration")) = Ok c) ->
  construct cls models ner = Ok e0 -> load e0 = Ok e -> nlp_keys e = Ok langs ->
  create_engine W self =
    ((RegistryContains (PStr n) :: RegistryGetItem (PStr n)
        :: match ner with
           | NerParsed _ =>
               [FromDict (default PNone (py_lookup items "ner_model_configuration"))]
           | NerRaw _ => []
           end
        ++ [Construct cls models ner; LoadCall e0;
            Log INFO (CreatedEngine (instance_engine_name e) langs)])%list,
     Ok e).
Proof.
  intros Hconf Hmodels Hm Hname Hn Hcls Hner Hbuild Hload Hkeys.
  assert (py_truthy (PStr n) = true) as Hnt.
  { cbn. by destruct (String.eqb_spec n EmptyString). }
  rewrite (create_engine_valid W self items models (PStr n)) by done.
  unfold registry_contains, assemble, registry_getitem, py_getitem, py_get.
  cbn [py_hashable]. rewrite Hcls, Hmodels.
  rewrite bool_decide_eq_true_2 by eauto.
  unfold call, pure. cbn [bind negb].
  destruct Hner as [[-> Hfalsy]|(c & -> & Htruthy & Hparse)].
  - rewrite Hfalsy. unfold ret. cbn [bind]. rewrite Hbuild. cbn [bind].
    rewrite Hload. cbn [bind]. rewrite Hkeys. reflexivity.
  - rewrite Htruthy. cbn [bind]. rewrite Hparse. unfold ret. cbn [bind].
    rewrite Hbuild. cbn [bind]. rewrite Hload. cbn [bind]. rewrite Hkeys.
    reflexivity.
Qed.

(** With a falsy NER section, the first three events of [create_engine] on a
    validated configuration naming a registered class. *)
Lemma create_engine_trace_raw self items models (n : string) cls :
  nlp_configuration self = Some (PDict items) ->
  py_lookup items "models" = Some models -> py_truthy models = true ->
  py_lookup items "nlp_engine_name" = Some (PStr n) -> n <> EmptyString ->
  nlp_engines self !! n = Some cls ->
  py_truthy (default PNone (py_lookup items "ner_model_configuration")) = false ->
  exists rest,
    trace (create_engine W self) =
      RegistryContains (PStr n) :: RegistryGetItem (PStr n)
        :: Construct cls models
             (NerRaw (default PNone (py_lookup items "ner_model_configuration")))
        :: rest.
Proof.
  intros Hconf Hmodels Hm Hname Hn Hcls Hfalsy.
  assert (py_truthy (PStr n) = true) as Hnt.
  { cbn. by destruct (String.eqb_spec n EmptyString). }
  rewrite (create_engine_valid W self items models (PStr n)) by done.
  unfold registry_contains, assemble, registry_getitem, py_getitem, py_get.
  cbn [py_hashable]. rewrite Hcls, Hmodels.
  rewrite bool_decide_eq_true_2 by eauto.
  unfold call, ret, pure.
  rewrite bind_trace. cbn [trace outcome fst snd app negb].
  rewrite try_except_KeyError_trace.
  repeat (rewrite bind_trace; cbn [trace outcome fst snd app]; rewrite ?Hfalsy).
  cbn [trace outcome fst snd app]. by eexists.
Qed.

End Assembly.

(** * Further properties of the registry and of the provider as a whole *)

Section Provision.

Context {Engine : Type} `{!NlpEngine Engine} {NerModelConfiguration : Type}.
Variable W : World Engine NerModelConfiguration.
Implicit Types (engines : option (list (EngineClass Engine NerModelConfiguration))).
Implicit Types (l : list (EngineClass Engine NerModelConfiguration)).
Implicit Types (conf_file : option PathLike) (conf : PyVal) (p : PathLike).

(** X17: candidates appended to a sequence take precedence: the registry of
    [l1 ++ l2] is that of [l2] completed by that of [l1]. *)
Theorem registry_of_app l1 l2 :
  registry_of (l1 ++ l2) = registry_of l2 ∪ registry_of l1.
Proof.
  apply map_eq. intros n.
  rewrite lookup_union, !registry_of_lookup, List.filter_app, last_app.
  by destruct (last (List.filter (registers n) l2)),
              (last (List.filter (registers n) l1)).
Qed.

(** X18: when none of the candidates in effect is available, the provider is
    built all the same, with an empty registry, and every validated
    configuration is refused by [create_engine] as naming an unknown
    engine. *)
Theorem no_available_engine_refuses_all
    engines conf_file conf t self items models (n : string) :
  (forall e, In e (effective_candidates W engines) -> is_available e = false) ->
  __init__ W engines conf_file conf = (t, Ok self) ->
  nlp_configuration self = Some (PDict items) ->
  py_lookup items "models" = Some models -> py_truthy models = true ->
  py_lookup items "nlp_engine_name" = Some (PStr n) -> n <> EmptyString ->
  nlp_engines self = ∅ /\
  create_engine W self =
    ([RegistryContains (PStr n)],
     Raise (ValueError (engine_not_available_msg (PStr n)))).
Proof.
  intros Hnone Hinit Hconf Hmodels Hm Hname Hn.
  assert (nlp_engines self = ∅) as Hempty.
  { apply init_registry in Hinit. rewrite Hinit.
    apply map_empty. intros k. apply eq_None_not_Some.
    intros Hsome. apply registry_of_keys in Hsome as (e & Hin & Hav & _).
    apply Hnone in Hin. congruence. }
  split; [exact Hempty|].
  rewrite (create_engine_valid W self items models (PStr n)); try done.
  - unfold registry_contains. cbn [py_hashable]. rewrite Hempty, lookup_empty.
    rewrite bool_decide_eq_false_2 by (by intros [? ?]). reflexivity.
  - cbn. by destruct (String.eqb_spec n EmptyString).
Qed.


(** X20: with no configuration file at the default path and no argument, the
    provider asks for spacy with the model [en_core_web_lg] for [en]: if no
    available candidate is named spacy, [create_engine] refuses spacy as
    unknown; otherwise the class registered as spacy is constructed with
    that model list and no NER configuration. *)
Theorem missing_default_file_asks_for_spacy engines :
  exists_ W (path_join (path_join (package_dir W) "conf") "default.yaml") = Ok false ->
  (registry_of (effective_candidates W engines) !! "spacy" = None ->
   outcome (provide W engines None PNone) =
     Raise (ValueError ("NLP engine 'spacy' is not available. " +:+
                        "Make sure you have all required packages installed"))) /\
  (forall cls,
     registry_of (effective_candidates W engines) !! "spacy" = Some cls ->
     In (Construct cls
           (PList [PDict [("lang_code", PStr "en"); ("model_name", PStr "en_core_web_lg")]])
           (NerRaw PNone))
        (trace (provide W engines None PNone))).
Proof.
  intros Hmissing.
  assert (__init__ W engines None PNone =
            ([Log DEBUG LoadedAvailableEngines;
              Log DEBUG (ReadingDefaultConf
                           (path_text (_get_full_conf_path W "default.yaml")));
              PathExists (path_text (_get_full_conf_path W "default.yaml"));
              Log WARNING (ConfFileNotFound
                             (path_text (_get_full_conf_path W "default.yaml")));
              Log WARNING MissingNerModelConfiguration],
             Ok {| nlp_engines := registry_of (effective_candidates W engines);
                   nlp_configuration := Some default_nlp_configuration |})) as Hinit.
  { rewrite init_default. by rewrite read_nlp_conf_missing. }
  unfold provide. rewrite Hinit. split.
  - intros Hreg. rewrite bind_outcome. cbn [outcome snd].
    unfold default_nlp_configuration.
    erewrite create_engine_valid; [|reflexivity..].
    unfold registry_contains. cbn [py_hashable nlp_engines]. rewrite Hreg.
    rewrite bool_decide_eq_false_2 by (by intros [? ?]). reflexivity.
  - intros cls Hreg. rewrite bind_trace. cbn [trace outcome fst snd].
    apply in_or_app. right.
    edestruct (create_engine_trace_raw W
                 {| nlp_engines := registry_of (effective_candidates W engines);
                    nlp_configuration := Some default_nlp_configuration |})
      as [rest ->]; [reflexivity | reflexivity | reflexivity | reflexivity
                    | discriminate | exact Hreg | reflexivity |].
    right. right. by left.
Qed.

End Provision.

(** * The further properties at work on the sample environments *)




Lemma init_attribute_unassigned_iff_witness :
  nlp_configuration (sample_provider None) = None <->
  conf_file_truthy (Some (StrPath EmptyString)) = false /\ py_truthy PNone = false /\
  ~ (Some (StrPath EmptyString) = None /\ PNone = PNone).
Proof.
  apply (init_attribute_unassigned_iff sample_world None (Some (StrPath EmptyString)) PNone
           [Log DEBUG LoadedAvailableEngines] (sample_provider None)).
  reflexivity.
Defined.

Lemma init_touches_no_engine_witness :
  is_engine_effect (Engine:=SampleEngine) (NerModelConfiguration:=PyVal)
    (PathExists "/opt/guardian_analyzer/conf/default.yaml") = false /\
  is_registry_event (Engine:=SampleEngine) (NerModelConfiguration:=PyVal)
    (PathExists "/opt/guardian_analyzer/conf/default.yaml") = false.
Proof.
  apply (init_touches_no_engine sample_world None None PNone).
  right. right. left. reflexivity.
Defined.

Lemma init_file_io_iff_witness :
  exists ev,
    In ev (trace (__init__ sample_world None (Some (StrPath "conf.yaml")) (PDict []))) /\
    is_file_io ev = true.
Proof.
  apply (init_file_io_iff sample_world None (Some (StrPath "conf.yaml")) (PDict [])).
  left. split; reflexivity.
Defined.

Lemma init_opens_only_existing_witness :
  exists_ (file_world (Ok (PDict stanza_configuration))) "conf.yaml" = Ok true /\
  (Some (StrPath "conf.yaml") = Some (StrPath "conf.yaml") \/
   Some (StrPath "conf.yaml") = Some (PathObj "conf.yaml") \/
   (Some (StrPath "conf.yaml") = None /\
    "conf.yaml" =
      path_join (path_join (package_dir (file_world (Ok (PDict stanza_configuration))))
                   "conf") "default.yaml")).
Proof.
  apply (init_opens_only_existing (file_world (Ok (PDict stanza_configuration)))
           None (Some (StrPath "conf.yaml")) PNone "conf.yaml").
  right. right. left. reflexivity.
Defined.

Lemma create_engine_success_inv_witness :
  exists items models n cls ner e0 langs,
    nlp_configuration (sample_provider (Some (PDict (spacy_configuration PNone))))
      = Some (PDict items) /\
    py_lookup items "models" = Some models /\ py_truthy models = true /\
    py_lookup items "nlp_engine_name" = Some (PStr n) /\
    nlp_engines (sample_provider (Some (PDict (spacy_configuration PNone)))) !! n
      = Some cls /\
    (ner = NerRaw (default PNone (py_lookup items "ner_model_configuration")) /\
     py_truthy (default PNone (py_lookup items "ner_model_configuration")) = false \/
     exists c, ner = NerParsed c /\
       py_truthy (default PNone (py_lookup items "ner_model_configuration")) = true /\
       from_dict sample_world (default PNone (py_lookup items "ner_model_configuration"))
         = Ok c) /\
    construct cls models ner = Ok e0 /\ load e0 = Ok (spacy_engine false) /\
    nlp_keys (spacy_engine false) = Ok langs /\
    [RegistryContains (PStr "spacy"); RegistryGetItem (PStr "spacy");
     Construct (SpacyNlpEngine sample_world) english_models (NerRaw PNone);
     LoadCall (spacy_engine false);
     Log INFO (CreatedEngine "spacy" ["en"])] =
      (RegistryContains (PStr n) :: RegistryGetItem (PStr n)
         :: match ner with
            | NerParsed _ =>
                [FromDict (default PNone (py_lookup items "ner_model_configuration"))]
            | NerRaw _ => []
            end
         ++ [Construct cls models ner; LoadCall e0;
             Log INFO (CreatedEngine (instance_engine_name (spacy_engine false)) langs)])%list.
Proof.
  apply (create_engine_success_inv sample_world
           (sample_provider (Some (PDict (spacy_configuration PNone))))).
  reflexivity.
Defined.

Lemma constructor_error_propagates_witness :
  outcome (create_engine sample_world (broken_provider (OSError "out of memory")))
    = Raise (OSError "out of memory") /\
  forall ev,
    In ev (trace (create_engine sample_world (broken_provider (OSError "out of memory")))) ->
    is_load ev = false.
Proof.
  apply (constructor_error_propagates sample_world
           (broken_provider (OSError "out of memory"))
           (broken_class "spacy" (OSError "out of memory"))
           english_models (NerRaw PNone) (OSError "out of memory")).
  - right. right. left. reflexivity.
  - reflexivity.
Defined.

Lemma ner_parse_error_propagates_witness :
  outcome (create_engine (unparsable_world (TypeError "unexpected keyword argument"))
             (sample_provider
                (Some (PDict (spacy_configuration (PDict [("labels", PNone)]))))))
    = Raise (TypeError "unexpected keyword argument") /\
  forall ev,
    In ev (trace (create_engine (unparsable_world (TypeError "unexpected keyword argument"))
                    (sample_provider
                       (Some (PDict (spacy_configuration (PDict [("labels", PNone)]))))))) ->
    is_construct ev = false.
Proof.
  apply (ner_parse_error_propagates
           (unparsable_world (TypeError "unexpected keyword argument"))
           (sample_provider
              (Some (PDict (spacy_configuration (PDict [("labels", PNone)])))))
           (PDict [("labels", PNone)]) (TypeError "unexpected keyword argument")).
  - right. right. left. reflexivity.
  - reflexivity.
Defined.

Lemma language_summary_error_propagates_witness :
  outcome (create_engine (opaque_world (AttributeError "'NoneType' object has no attribute 'keys'"))
             (opaque_provider (AttributeError "'NoneType' object has no attribute 'keys'")))
    = Raise (AttributeError "'NoneType' object has no attribute 'keys'") /\
  last (trace (create_engine
                 (opaque_world (AttributeError "'NoneType' object has no attribute 'keys'"))
                 (opaque_provider (AttributeError "'NoneType' object has no attribute 'keys'"))))
    = Some (LoadCall {| opaque_name := "spacy";
                        opaque_nlp_error :=
                          AttributeError "'NoneType' object has no attribute 'keys'" |}).
Proof.
  apply (language_summary_error_propagates
           (opaque_world (AttributeError "'NoneType' object has no attribute 'keys'"))
           (opaque_provider (AttributeError "'NoneType' object has no attribute 'keys'"))
           {| opaque_name := "spacy";
              opaque_nlp_error := AttributeError "'NoneType' object has no attribute 'keys'" |}
           {| opaque_name := "spacy";
              opaque_nlp_error := AttributeError "'NoneType' object has no attribute 'keys'" |}
           (AttributeError "'NoneType' object has no attribute 'keys'")).
  - right. right. right. left. reflexivity.
  - reflexivity.
  - reflexivity.
Defined.

Lemma unhashable_engine_name_rejected_witness :
  create_engine sample_world
    (sample_provider
       (Some (PDict [("nlp_engine_name", PList [PStr "spacy"]); ("models", english_models)])))
  = ([RegistryContains (PList [PStr "spacy"])],
     Raise (TypeError "unhashable type: 'list'")).
Proof.
  apply (unhashable_engine_name_rejected sample_world
           (sample_provider
              (Some (PDict [("nlp_engine_name", PList [PStr "spacy"]);
                            ("models", english_models)])))
           [("nlp_engine_name", PList [PStr "spacy"]); ("models", english_models)]
           english_models (PList [PStr "spacy"])); reflexivity.
Defined.

Lemma non_mapping_configuration_rejected_witness :
  create_engine sample_world (sample_provider (Some (PList [PStr "spacy"])))
  = ([], Raise (AttributeError "'list' object has no attribute 'get'")).
Proof.
  apply (non_mapping_configuration_rejected sample_world
           (sample_provider (Some (PList [PStr "spacy"]))) (PList [PStr "spacy"]));
    [reflexivity | reflexivity | discriminate].
Defined.

Lemma validated_lookups_succeed_witness :
  exists name models,
    py_getitem default_nlp_configuration "nlp_engine_name" = Ok name /\
    py_truthy name = true /\
    py_getitem default_nlp_configuration "models" = Ok models /\
    py_truthy models = true /\
    (registry_contains (nlp_engines (sample_provider (Some default_nlp_configuration))) name
       = Ok true ->
     exists cls,
       registry_getitem (nlp_engines (sample_provider (Some default_nlp_configuration))) name
         = Ok cls).
Proof.
  apply (validated_lookups_succeed
           (sample_provider (Some default_nlp_configuration)) default_nlp_configuration).
  reflexivity.
Defined.

Lemma create_engine_succeeds_witness :
  create_engine sample_world
    (sample_provider
       (Some (PDict (spacy_configuration (PDict [("labels_to_ignore", PList [PStr "O"])])))))
  = ([RegistryContains (PStr "spacy"); RegistryGetItem (PStr "spacy");
      FromDict (PDict [("labels_to_ignore", PList [PStr "O"])]);
      Construct (SpacyNlpEngine sample_world) english_models
        (NerParsed (PDict [("labels_to_ignore", PList [PStr "O"])]));
      LoadCall (spacy_engine true);
      Log INFO (CreatedEngine "spacy" ["en"])],
     Ok (spacy_engine true)).
Proof.
  refine (create_engine_succeeds sample_world
            (sample_provider
               (Some (PDict (spacy_configuration
                               (PDict [("labels_to_ignore", PList [PStr "O"])])))))
            (spacy_configuration (PDict [("labels_to_ignore", PList [PStr "O"])]))
            english_models "spacy" (SpacyNlpEngine sample_world)
            (NerParsed (PDict [("labels_to_ignore", PList [PStr "O"])]))
            (spacy_engine true) (spacy_engine true) ["en"]
            _ _ _ _ _ _ _ _ _ _);
    try reflexivity; [discriminate|].
  right. by eexists.
Defined.

Lemma no_available_engine_refuses_all_witness :
  nlp_engines (bare_provider (Some (PDict (spacy_configuration PNone)))) = ∅ /\
  create_engine bare_world (bare_provider (Some (PDict (spacy_configuration PNone)))) =
    ([RegistryContains (PStr "spacy")],
     Raise (ValueError (engine_not_available_msg (PStr "spacy")))).
Proof.
  apply (no_available_engine_refuses_all bare_world None None
           (PDict (spacy_configuration PNone)) [Log DEBUG LoadedAvailableEngines]
           (bare_provider (Some (PDict (spacy_configuration PNone))))
           (spacy_configuration PNone) english_models "spacy");
    try reflexivity; [|discriminate].
  intros e [<-|[<-|[<-|[]]]]; reflexivity.
Defined.


Lemma missing_default_file_asks_for_spacy_witness :
  outcome (provide bare_world None None PNone) =
    Raise (ValueError ("NLP engine 'spacy' is not available. " +:+
                       "Make sure you have all required packages installed")).
Proof.
  destruct (missing_default_file_asks_for_spacy bare_world None) as [Hrefused _];
    [reflexivity|].
  apply Hrefused. reflexivity.
Defined.

Lemma create_engine_effects_bounded_witness :
  length (List.filter is_construct
            (trace (create_engine sample_world
                      (sample_provider (Some (PDict (spacy_configuration PNone))))))) <= 1.
Proof.
  destruct (create_engine_effects_bounded sample_world
              (sample_provider (Some (PDict (spacy_configuration PNone)))))
    as (_ & Hconstruct & _).
  exact Hconstruct.
Defined.
